(** * pxt-ev3-navigation: the navigation sensor drivers

    A shallow embedding of the three [NavigationSensor] classes of the
    repository:

    - [DualLidar]   : navigation-sensor.ts, first document (two lidars, modes
                      NAV1/NAV2, events ObjectNearLeft/ObjectNearRight);
    - [LegacyLidar] : navigation-sensor.ts, second document (same accessors,
                      a single threshold, no left/right events);
    - [FiveLidar]   : main.ts (five lidars, modes RANGE/HEADING).

    TypeScript numbers are modelled as [Z] (every value the drivers handle is
    a 16-bit register field, a threshold or an enum constant), byte buffers as
    [list byte].  One call of a driver method sees one snapshot of the device
    registers.

    The classes extend [internal.UartSensor] and own a
    [sensors.ThresholdDetector]; both live in the host framework, outside the
    repository, together with the buffer codec behind [getNumber] and the
    event bus behind [control.raiseEvent].  These collaborators are modelled
    from the specification, each under a doc comment that says so. *)

From Stdlib Require Import ZArith List Bool Lia.
From Stdlib Require Import Strings.Byte.
From Stdlib Require Strings.String DecimalString DecimalZ.
Import ListNotations.
Open Scope Z_scope.

(** ** Errors (spec, section 7) *)

Inductive Error : Type :=
| TransportError
| OutOfRange
| InvalidThreshold
| NotConnected.

Inductive Result (A : Type) : Type :=
| Ok (a : A)
| Fail (e : Error).
Arguments Ok {A} a.
Arguments Fail {A} e.

(** ** Register codec *)

Module Codec.

(** The two [NumberFormat]s the drivers pass to [getNumber]. *)
Inductive NumberFormat : Type :=
| UInt16LE
| Int16LE.

Definition width (fmt : NumberFormat) : nat :=
  match fmt with UInt16LE => 2%nat | Int16LE => 2%nat end.

Definition signed (fmt : NumberFormat) : bool :=
  match fmt with UInt16LE => false | Int16LE => true end.

Definition byteValue (b : byte) : Z := Z.of_N (Byte.to_N b).

(** Little-endian value of a run of bytes: the first byte is the least
    significant one. *)
Fixpoint littleEndian (bs : list byte) : Z :=
  match bs with
  | [] => 0
  | b :: rest => byteValue b + 256 * littleEndian rest
  end.

(** The [width] bytes of [buffer] that start at [offset]. *)
Definition field (buffer : list byte) (offset width : nat) : list byte :=
  firstn width (skipn offset buffer).

(** Modelled from the spec: the codec behind [getNumber] is the host
    framework's.  Section 4.1: reads [width] bytes starting at [offset] in
    little-endian order, interprets them as two's complement if [signed],
    else unsigned, and fails with [OutOfRange] if [offset + width] exceeds
    the buffer length. *)
Definition decode (buffer : list byte) (offset width : nat) (signed : bool)
  : Result Z :=
  if (length buffer <? offset + width)%nat then Fail OutOfRange
  else
    let u := littleEndian (field buffer offset width) in
    if signed && Z.testbit u (8 * Z.of_nat width - 1)
    then Ok (u - 2 ^ (8 * Z.of_nat width))
    else Ok u.

End Codec.

(** ** Threshold detector *)

Module ThresholdState.

Inductive t : Type := Normal | High | Low.

(** The numeric values, as the comment of navigation-sensor.ts records them:
    Normal=1, High=2, Low=3. *)
Definition value (s : t) : Z :=
  match s with Normal => 1 | High => 2 | Low => 3 end.

Definition eqb (a b : t) : bool :=
  match a, b with
  | Normal, Normal | High, High | Low, Low => true
  | _, _ => false
  end.

End ThresholdState.

Module ThresholdDetector.

Import ThresholdState.

Record t : Type := mk {
  id : Z;
  min : Z;
  max : Z;
  lowThreshold : Z;
  highThreshold : Z;
  level : ThresholdState.t
}.

(** Modelled from the spec: [new sensors.ThresholdDetector(id, min, max,
    low, high)] is the host framework's.  Section 4.3: initial state
    Normal. *)
Definition new (id min max low high : Z) : t :=
  mk id min max low high Normal.

(** Modelled from the spec: the transition function of section 4.3, its
    cases in the order the section lists them. *)
Definition classify (d : t) (value : Z) : ThresholdState.t :=
  if value <=? lowThreshold d then Low
  else if value >=? highThreshold d then High
  else Normal.

Definition withLevel (s : ThresholdState.t) (d : t) : t :=
  mk (id d) (min d) (max d) (lowThreshold d) (highThreshold d) s.

(** Modelled from the spec: [setLevel] recomputes the state and signals a
    level change when the state differs from the one the previous call
    left.  The signal carries the new state. *)
Definition setLevel (value : Z) (d : t) : t * option ThresholdState.t :=
  let s := classify d value in
  (withLevel s d, if eqb s (level d) then None else Some s).

(** Modelled from the spec: [threshold(state)] returns the configured
    boundary of a state, Low -> lowThreshold, High -> highThreshold.  The
    spec names no boundary for Normal and no driver asks for it; the model
    answers 0 there. *)
Definition threshold (d : t) (s : ThresholdState.t) : Z :=
  match s with
  | Low => lowThreshold d
  | High => highThreshold d
  | Normal => 0
  end.

(** The ordering invariant of section 3. *)
Definition ordered (d : t) : bool :=
  (min d <=? lowThreshold d) && (lowThreshold d <=? highThreshold d)
  && (highThreshold d <=? max d).

Definition withLowThreshold (v : Z) (d : t) : t :=
  mk (id d) (min d) (max d) v (highThreshold d) (level d).

(** Modelled from the spec: [setLowThreshold] validates the ordering
    invariant and fails with [InvalidThreshold] if the new value violates
    it; section 7 settles the choice: rejected, prior state retained. *)
Definition setLowThreshold (v : Z) (d : t) : Result t :=
  let d' := withLowThreshold v d in
  if ordered d' then Ok d' else Fail InvalidThreshold.

End ThresholdDetector.

(** ** The sensor base class, the device and the event bus *)

Module Uart.

(** The peripheral: the mode it is in, the register buffer it exposes in
    each mode, and the mode-switch commands it has received, oldest
    first. *)
Record Device : Type := mkDevice {
  activeMode : Z;
  registers : Z -> list byte;
  commands : list Z
}.

(** Modelled from the spec: the transport's [setMode(mode)] command
    (section 6), fire-and-forget. *)
Definition setUartMode (m : Z) (d : Device) : Device :=
  mkDevice m (registers d) (commands d ++ [m]).

(** Modelled from the spec: a transport read returns the buffer of the
    currently active mode (section 3, RawReading). *)
Definition readRegisters (d : Device) : list byte :=
  registers d (activeMode d).

(** The fields of a [NavigationSensor] object: [_id] and [mode] are the
    base class's, the two thresholds the subclass's. *)
Record NavigationSensor : Type := mkSensor {
  _id : Z;
  mode : Z;
  promixityThreshold : ThresholdDetector.t;
  movementThreshold : Z
}.

(** What a method call runs against. [bus] holds the [(source, code)]
    pairs given to [control.raiseEvent], oldest first. *)
Record World : Type := mkWorld {
  this : NavigationSensor;
  uart : Device;
  bus : list (Z * Z)
}.

Definition withMode (m : Z) (s : NavigationSensor) : NavigationSensor :=
  mkSensor (_id s) m (promixityThreshold s) (movementThreshold s).

Definition withProximity (d : ThresholdDetector.t) (s : NavigationSensor)
  : NavigationSensor :=
  mkSensor (_id s) (mode s) d (movementThreshold s).

Definition withMovement (v : Z) (s : NavigationSensor) : NavigationSensor :=
  mkSensor (_id s) (mode s) (promixityThreshold s) v.

Definition withThis (s : NavigationSensor) (w : World) : World :=
  mkWorld s (uart w) (bus w).

(** A method either returns a value or throws; both leave a world
    behind, so that what was done before a throw stays done. *)
Inductive Outcome (A : Type) : Type :=
| Return (a : A) (w : World)
| Throw (e : Error) (w : World).
Arguments Return {A} a w.
Arguments Throw {A} e w.

Definition M (A : Type) : Type := World -> Outcome A.

Definition ret {A} (a : A) : M A := fun w => Return a w.

Definition bind {A B} (c : M A) (k : A -> M B) : M B :=
  fun w =>
    match c w with
    | Return a w1 => k a w1
    | Throw e w1 => Throw e w1
    end.

Definition throw {A} (e : Error) : M A := fun w => Throw e w.

Definition gets {A} (f : World -> A) : M A := fun w => Return (f w) w.

Definition modify (f : World -> World) : M unit := fun w => Return tt (f w).

Definition world {A} (o : Outcome A) : World :=
  match o with Return _ w => w | Throw _ w => w end.

(** [when c body] is the statement [if (c) body]. *)
Definition when (c : bool) (body : M unit) : M unit :=
  if c then body else ret tt.

(** Modelled from the spec: the mode selector of section 4.2, the base
    class's [_setMode].  If the requested mode differs from the current
    one, the switch command goes to the device and the current mode becomes
    the requested one; otherwise nothing happens. *)
Definition selectMode (requested : Z) (w : World) : World :=
  if requested =? mode (this w) then w
  else mkWorld (withMode requested (this w))
               (setUartMode requested (uart w)) (bus w).

Definition _setMode (requested : Z) : M unit := modify (selectMode requested).

(** [getNumber(fmt, off)]: decode a field of the buffer the device exposes
    now. *)
Definition getNumber (fmt : Codec.NumberFormat) (off : nat) : M Z :=
  fun w =>
    match Codec.decode (readRegisters (uart w)) off (Codec.width fmt)
                       (Codec.signed fmt) with
    | Ok v => Return v w
    | Fail e => Throw e w
    end.

(** Modelled from the spec: [raiseEvent(sourceId, eventCode)] of the event
    bus (section 6). *)
Definition raise (src code : Z) (w : World) : World :=
  mkWorld (this w) (uart w) (bus w ++ [(src, code)]).

Definition raiseEvent (src code : Z) : M unit := modify (raise src code).

(** [this.promixityThreshold.setLevel(curr)]; the detector's level-change
    signal goes to the bus under the detector's id, with the new state's
    value as the code. *)
Definition setLevel (curr : Z) : M unit :=
  fun w =>
    let r := ThresholdDetector.setLevel curr (promixityThreshold (this w)) in
    let w1 := withThis (withProximity (fst r) (this w)) w in
    match snd r with
    | Some s => raiseEvent (ThresholdDetector.id (fst r))
                           (ThresholdState.value s) w1
    | None => Return tt w1
    end.

(** [this.promixityThreshold.setLowThreshold(value)]. *)
Definition setLowThreshold (value : Z) : M unit :=
  fun w =>
    match ThresholdDetector.setLowThreshold value
            (promixityThreshold (this w)) with
    | Ok d => Return tt (withThis (withProximity d (this w)) w)
    | Fail e => Throw e w
    end.

(** Modelled from the spec: [super(port)].  The mode selector starts unset
    ([unset] is the drivers' [NavigationSensorMode.None]) and the source id
    is fixed per port; the port number stands for it. *)
Definition super (port unset : Z) (d : ThresholdDetector.t)
           (movement : Z) (dev : Device) : World :=
  mkWorld (mkSensor port unset d movement) dev [].

(** The driver's belief about the mode agrees with the device. *)
Definition inSync (w : World) : Prop := activeMode (uart w) = mode (this w).

End Uart.

Module UartNotations.
Notation "x <- c ;; k" := (Uart.bind c (fun x => k))
  (at level 61, c at next level, right associativity).
Notation "c ;; k" := (Uart.bind c (fun _ => k))
  (at level 61, right associativity).
End UartNotations.


(** ** navigation-sensor.ts, first document: the dual-lidar driver *)

Module DualLidar.

Import Uart UartNotations.

Module NavigationSensorEvent.

Inductive t : Type :=
| ObjectDetected
| ObjectNearLeft
| ObjectNearRight
| ObjectNear.

Definition value (e : t) : Z :=
  match e with
  | ObjectDetected => 10
  | ObjectNearLeft => 4
  | ObjectNearRight => 5
  | ObjectNear => ThresholdState.value ThresholdState.Low
  end.

End NavigationSensorEvent.

Module NavigationSensorMode.

Inductive t : Type := None | NAV1 | NAV2.

Definition value (m : t) : Z :=
  match m with None => -1 | NAV1 => 0 | NAV2 => 1 end.

End NavigationSensorMode.

Definition constructor (port : Z) (dev : Device) : World :=
  selectMode (NavigationSensorMode.value NavigationSensorMode.NAV1)
    (super port (NavigationSensorMode.value NavigationSensorMode.None)
           (ThresholdDetector.new port 0 2500 100 1500) 1 dev).

Definition _query : M Z := getNumber Codec.UInt16LE 0.

Definition distanceLeft : M Z :=
  _setMode (NavigationSensorMode.value NavigationSensorMode.NAV1) ;;
  getNumber Codec.UInt16LE 0.

Definition distanceRight : M Z :=
  _setMode (NavigationSensorMode.value NavigationSensorMode.NAV1) ;;
  getNumber Codec.UInt16LE 2.

Definition heading : M Z :=
  _setMode (NavigationSensorMode.value NavigationSensorMode.NAV1) ;;
  getNumber Codec.UInt16LE 4.

(** [control.raiseEvent(this._id, e)]. *)
Definition raiseOwn (e : NavigationSensorEvent.t) : M unit :=
  fun w => raiseEvent (_id (this w)) (NavigationSensorEvent.value e) w.

Definition _update (prev curr : Z) : M unit :=
  setLevel curr ;;
  movement <- gets (fun w => movementThreshold (this w)) ;;
  when (Z.abs (prev - curr) >? movement)
       (raiseOwn NavigationSensorEvent.ObjectDetected) ;;
  right <- distanceRight ;;
  low <- gets (fun w =>
                 ThresholdDetector.lowThreshold (promixityThreshold (this w))) ;;
  when (right <? low) (raiseOwn NavigationSensorEvent.ObjectNearRight) ;;
  left <- distanceLeft ;;
  low' <- gets (fun w =>
                  ThresholdDetector.lowThreshold (promixityThreshold (this w))) ;;
  when (left <? low') (raiseOwn NavigationSensorEvent.ObjectNearLeft).

Definition setThreshold (condition value : Z) : M unit :=
  if condition =? NavigationSensorEvent.value NavigationSensorEvent.ObjectDetected
  then modify (fun w => withThis (withMovement value (this w)) w)
  else setLowThreshold value.

Definition getProximityThreshold (condition : Z) : M Z :=
  if condition =? NavigationSensorEvent.value NavigationSensorEvent.ObjectDetected
  then gets (fun w => movementThreshold (this w))
  else gets (fun w => ThresholdDetector.threshold (promixityThreshold (this w))
                                                  ThresholdState.Low).

End DualLidar.

(** ** navigation-sensor.ts, second document: the earlier driver *)

Module LegacyLidar.

Import Uart UartNotations.

Module NavigationSensorEvent.

Inductive t : Type :=
| ObjectDetected
| ObjectNear.

Definition value (e : t) : Z :=
  match e with
  | ObjectDetected => 10
  | ObjectNear => ThresholdState.value ThresholdState.Low
  end.

End NavigationSensorEvent.

Module NavigationSensorMode.

Inductive t : Type := None | NAV1 | NAV2.

Definition value (m : t) : Z :=
  match m with None => -1 | NAV1 => 0 | NAV2 => 1 end.

End NavigationSensorMode.

Definition constructor (port : Z) (dev : Device) : World :=
  selectMode (NavigationSensorMode.value NavigationSensorMode.NAV1)
    (super port (NavigationSensorMode.value NavigationSensorMode.None)
           (ThresholdDetector.new port 0 255 10 100) 1 dev).

Definition _query : M Z := getNumber Codec.UInt16LE 0.

Definition distanceLeft : M Z :=
  _setMode (NavigationSensorMode.value NavigationSensorMode.NAV1) ;;
  getNumber Codec.UInt16LE 0.

Definition distanceRight : M Z :=
  _setMode (NavigationSensorMode.value NavigationSensorMode.NAV1) ;;
  getNumber Codec.UInt16LE 2.

Definition heading : M Z :=
  _setMode (NavigationSensorMode.value NavigationSensorMode.NAV1) ;;
  getNumber Codec.UInt16LE 4.

Definition raiseOwn (e : NavigationSensorEvent.t) : M unit :=
  fun w => raiseEvent (_id (this w)) (NavigationSensorEvent.value e) w.

Definition _update (prev curr : Z) : M unit :=
  setLevel curr ;;
  movement <- gets (fun w => movementThreshold (this w)) ;;
  when (Z.abs (prev - curr) >? movement)
       (raiseOwn NavigationSensorEvent.ObjectDetected).

(** The [switch] tries its cases in order and does nothing when none
    matches. *)
Definition setThreshold (condition value : Z) : M unit :=
  if condition =? NavigationSensorEvent.value NavigationSensorEvent.ObjectNear
  then setLowThreshold value
  else if condition =? NavigationSensorEvent.value NavigationSensorEvent.ObjectDetected
  then modify (fun w => withThis (withMovement value (this w)) w)
  else ret tt.

Definition threshold (condition : Z) : M Z :=
  if condition =? NavigationSensorEvent.value NavigationSensorEvent.ObjectNear
  then gets (fun w => ThresholdDetector.threshold (promixityThreshold (this w))
                                                  ThresholdState.Low)
  else if condition =? NavigationSensorEvent.value NavigationSensorEvent.ObjectDetected
  then gets (fun w => movementThreshold (this w))
  else ret 0.

End LegacyLidar.

(** ** main.ts: the five-lidar driver *)

Module FiveLidar.

Import Uart UartNotations.

Module NavigationSensorEvent.

Inductive t : Type :=
| ObjectDetected
| ObjectNear.

Definition value (e : t) : Z :=
  match e with
  | ObjectDetected => 10
  | ObjectNear => ThresholdState.value ThresholdState.Low
  end.

End NavigationSensorEvent.

Module NavigationSensorMode.

Inductive t : Type := None | RANGE | HEADING.

Definition value (m : t) : Z :=
  match m with None => -1 | RANGE => 0 | HEADING => 1 end.

End NavigationSensorMode.

Definition constructor (port : Z) (dev : Device) : World :=
  selectMode (NavigationSensorMode.value NavigationSensorMode.HEADING)
    (super port (NavigationSensorMode.value NavigationSensorMode.None)
           (ThresholdDetector.new port 0 255 10 100) 1 dev).

Definition _query : M Z := getNumber Codec.Int16LE 0.

Definition distanceFrontLeft : M Z :=
  _setMode (NavigationSensorMode.value NavigationSensorMode.RANGE) ;;
  getNumber Codec.UInt16LE 0.

Definition distanceFrontRight : M Z :=
  _setMode (NavigationSensorMode.value NavigationSensorMode.RANGE) ;;
  getNumber Codec.UInt16LE 2.

Definition distanceRear : M Z :=
  _setMode (NavigationSensorMode.value NavigationSensorMode.RANGE) ;;
  getNumber Codec.UInt16LE 8.

Definition distanceLeftSide : M Z :=
  _setMode (NavigationSensorMode.value NavigationSensorMode.RANGE) ;;
  getNumber Codec.UInt16LE 4.

Definition distanceRightSide : M Z :=
  _setMode (NavigationSensorMode.value NavigationSensorMode.RANGE) ;;
  getNumber Codec.UInt16LE 6.

Definition heading : M Z :=
  _setMode (NavigationSensorMode.value NavigationSensorMode.HEADING) ;;
  getNumber Codec.Int16LE 0.

Definition pitch : M Z :=
  _setMode (NavigationSensorMode.value NavigationSensorMode.HEADING) ;;
  getNumber Codec.Int16LE 2.

Definition roll : M Z :=
  _setMode (NavigationSensorMode.value NavigationSensorMode.HEADING) ;;
  getNumber Codec.Int16LE 4.

Definition raiseOwn (e : NavigationSensorEvent.t) : M unit :=
  fun w => raiseEvent (_id (this w)) (NavigationSensorEvent.value e) w.

Definition _update (prev curr : Z) : M unit :=
  setLevel curr ;;
  movement <- gets (fun w => movementThreshold (this w)) ;;
  when (Z.abs (prev - curr) >? movement)
       (raiseOwn NavigationSensorEvent.ObjectDetected).

Definition setThreshold (condition value : Z) : M unit :=
  if condition =? NavigationSensorEvent.value NavigationSensorEvent.ObjectNear
  then setLowThreshold value
  else if condition =? NavigationSensorEvent.value NavigationSensorEvent.ObjectDetected
  then modify (fun w => withThis (withMovement value (this w)) w)
  else ret tt.

Definition threshold (condition : Z) : M Z :=
  if condition =? NavigationSensorEvent.value NavigationSensorEvent.ObjectNear
  then gets (fun w => ThresholdDetector.threshold (promixityThreshold (this w))
                                                  ThresholdState.Low)
  else if condition =? NavigationSensorEvent.value NavigationSensorEvent.ObjectDetected
  then gets (fun w => movementThreshold (this w))
  else ret 0.

End FiveLidar.

(** ** Observations the statements are written with *)

Module Observe.

Import Uart.

(** [readsField c m off width signed w]: run in [w], the accessor [c] first
    selects mode [m], so that both the driver and the device are in [m], and
    then returns the [width]-byte field at [off] of the buffer of [m], or
    throws what the codec reports. *)
Definition readsField (c : M Z) (m : Z) (off width : nat) (signed : bool)
           (w : World) : Prop :=
  let w' := selectMode m w in
  mode (this w') = m /\ activeMode (uart w') = m /\
  c w = match Codec.decode (registers (uart w) m) off width signed with
        | Ok v => Return v w'
        | Fail e => Throw e w'
        end.

(** The mode-switch commands the device received between [w] and [w']. *)
Definition issued (w w' : World) : list Z :=
  skipn (length (commands (uart w))) (commands (uart w')).

(** The events raised between [w] and [w']. *)
Definition raised (w w' : World) : list (Z * Z) :=
  skipn (length (bus w)) (bus w').

(** What [setLevel curr] puts on the bus in [w]. *)
Definition levelSignal (curr : Z) (w : World) : list (Z * Z) :=
  let d := promixityThreshold (this w) in
  match snd (ThresholdDetector.setLevel curr d) with
  | Some s => [(ThresholdDetector.id d, ThresholdState.value s)]
  | None => []
  end.

(** The event [code] of the sensor of [w], present when [c] holds. *)
Definition signal (c : bool) (code : Z) (w : World) : list (Z * Z) :=
  if c then [(_id (this w), code)] else [].

(** A device that starts in mode 0 with the given buffers for modes 0 and 1
    and has received no command yet. *)
Definition device (buffer0 buffer1 : list byte) : Device :=
  mkDevice 0 (fun m => if m =? 0 then buffer0 else if m =? 1 then buffer1 else [])
           [].

(** Mode 0: ranges 100, 300, 50, 2000 and 40 mm (in the dual-lidar layout:
    left 100, right 300, heading 50).  Mode 1: the angles 45, 10 and -1. *)
Definition bench : Device :=
  device [x64; x00; x2c; x01; x32; x00; xd0; x07; x28; x00]
         [x2d; x00; x0a; x00; xff; xff].

(** Mode 0: left 10, right 50, then 90.  Mode 1: the raw fields ffff, 00c8
    and 8000. *)
Definition stray : Device :=
  device [x0a; x00; x32; x00; x5a; x00]
         [xff; xff; xc8; x00; x00; x80].

End Observe.

(** ** The status readout *)

Module Readout.

Import Uart.
Import String.

(** [_info()], the same in the three classes: [id:] followed by the source
    id when the sensor is active, [N.C.] otherwise.  [isActive()] is the
    host framework's and is taken as a parameter; the template literal
    prints the id in decimal. *)
Definition _info (isActive : bool) (w : World) : string :=
  if isActive
  then ("id:" ++ DecimalString.NilEmpty.string_of_int (Z.to_int (_id (this w))))%string
  else "N.C."%string.

End Readout.

(** ** Sessions: the methods as a program calls them, one after another *)

Module Session.

Import Uart.

(** The calls of a session, oldest first; a call that throws leaves its
    world behind like one that returns. *)
Definition run {C : Type} (step : C -> World -> World) (calls : list C)
           (w : World) : World :=
  fold_left (fun v c => step c v) calls w.

(** The world after an optional mode selection. *)
Definition select (requested : option Z) (w : World) : World :=
  match requested with
  | Some m => selectMode m w
  | None => w
  end.

(** The commands a mode selector sends for a series of requests, starting
    from the mode [current]. *)
Fixpoint changes (current : Z) (requested : list Z) : list Z :=
  match requested with
  | [] => []
  | m :: rest => (if m =? current then [] else [m]) ++ changes m rest
  end.

(** The mode a selector is in after a series of requests. *)
Definition lastOf (current : Z) (requested : list Z) : Z :=
  last requested current.

(** No command equals the one before it, nor the first the mode [before]. *)
Fixpoint alternates (before : Z) (cmds : list Z) : bool :=
  match cmds with
  | [] => true
  | m :: rest => negb (m =? before) && alternates m rest
  end.

(** Every event on the bus comes from the source [port], the sensor's and
    its detector's id, with a code among [codes]. *)
Definition sourced (port : Z) (codes : list Z) (w : World) : Prop :=
  _id (this w) = port
  /\ ThresholdDetector.id (promixityThreshold (this w)) = port
  /\ Forall (fun e => fst e = port /\ In (snd e) codes) (bus w).

End Session.

Module DualSession.

Import Uart.

Inductive Call : Type :=
| Query
| Update (prev curr : Z)
| DistanceLeft
| DistanceRight
| Heading
| SetThreshold (condition value : Z)
| GetProximityThreshold (condition : Z).

Definition step (c : Call) (w : World) : World :=
  match c with
  | Query => world (DualLidar._query w)
  | Update prev curr => world (DualLidar._update prev curr w)
  | DistanceLeft => world (DualLidar.distanceLeft w)
  | DistanceRight => world (DualLidar.distanceRight w)
  | Heading => world (DualLidar.heading w)
  | SetThreshold condition value => world (DualLidar.setThreshold condition value w)
  | GetProximityThreshold condition =>
      world (DualLidar.getProximityThreshold condition w)
  end.

End DualSession.

Module LegacySession.

Import Uart.

Inductive Call : Type :=
| Query
| Update (prev curr : Z)
| DistanceLeft
| DistanceRight
| Heading
| SetThreshold (condition value : Z)
| Threshold (condition : Z).

Definition step (c : Call) (w : World) : World :=
  match c with
  | Query => world (LegacyLidar._query w)
  | Update prev curr => world (LegacyLidar._update prev curr w)
  | DistanceLeft => world (LegacyLidar.distanceLeft w)
  | DistanceRight => world (LegacyLidar.distanceRight w)
  | Heading => world (LegacyLidar.heading w)
  | SetThreshold condition value =>
      world (LegacyLidar.setThreshold condition value w)
  | Threshold condition => world (LegacyLidar.threshold condition w)
  end.

End LegacySession.

Module FiveSession.

Import Uart.

Inductive Call : Type :=
| Query
| Update (prev curr : Z)
| DistanceFrontLeft
| DistanceFrontRight
| DistanceRear
| DistanceLeftSide
| DistanceRightSide
| Heading
| Pitch
| Roll
| SetThreshold (condition value : Z)
| Threshold (condition : Z).

Definition step (c : Call) (w : World) : World :=
  match c with
  | Query => world (FiveLidar._query w)
  | Update prev curr => world (FiveLidar._update prev curr w)
  | DistanceFrontLeft => world (FiveLidar.distanceFrontLeft w)
  | DistanceFrontRight => world (FiveLidar.distanceFrontRight w)
  | DistanceRear => world (FiveLidar.distanceRear w)
  | DistanceLeftSide => world (FiveLidar.distanceLeftSide w)
  | DistanceRightSide => world (FiveLidar.distanceRightSide w)
  | Heading => world (FiveLidar.heading w)
  | Pitch => world (FiveLidar.pitch w)
  | Roll => world (FiveLidar.roll w)
  | SetThreshold condition value =>
      world (FiveLidar.setThreshold condition value w)
  | Threshold condition => world (FiveLidar.threshold condition w)
  end.

(** The mode a call asks the selector for, if it asks. *)
Definition requests (c : Call) : option Z :=
  match c with
  | DistanceFrontLeft | DistanceFrontRight | DistanceRear
  | DistanceLeftSide | DistanceRightSide => Some 0
  | Heading | Pitch | Roll => Some 1
  | _ => None
  end.

Definition requested (calls : list Call) : list Z :=
  flat_map (fun c => match requests c with Some m => [m] | None => [] end)
           calls.

End FiveSession.

(** ** The channels of the five-lidar driver *)

Module FiveChannels.

Import Uart UartNotations.

Inductive Channel : Type :=
| RangeFrontLeft
| RangeFrontRight
| RangeRear
| RangeLeftSide
| RangeRightSide
| Heading
| Pitch
| Roll.

Definition accessor (c : Channel) : M Z :=
  match c with
  | RangeFrontLeft => FiveLidar.distanceFrontLeft
  | RangeFrontRight => FiveLidar.distanceFrontRight
  | RangeRear => FiveLidar.distanceRear
  | RangeLeftSide => FiveLidar.distanceLeftSide
  | RangeRightSide => FiveLidar.distanceRightSide
  | Heading => FiveLidar.heading
  | Pitch => FiveLidar.pitch
  | Roll => FiveLidar.roll
  end.

(** Read the channels one after another and collect the values. *)
Fixpoint readAll (cs : list Channel) : M (list Z) :=
  match cs with
  | [] => ret []
  | c :: rest =>
      v <- accessor c ;;
      vs <- readAll rest ;;
      ret (v :: vs)
  end.

(** The place of a channel in the device's registers: mode, offset,
    signedness. *)
Definition modeOf (c : Channel) : Z :=
  match c with
  | Heading | Pitch | Roll => 1
  | _ => 0
  end.

Definition offsetOf (c : Channel) : nat :=
  match c with
  | RangeFrontLeft => 0
  | RangeFrontRight => 2
  | RangeRear => 8
  | RangeLeftSide => 4
  | RangeRightSide => 6
  | Heading => 0
  | Pitch => 2
  | Roll => 4
  end.

Definition signedOf (c : Channel) : bool :=
  match c with
  | Heading | Pitch | Roll => true
  | _ => false
  end.

(** The field of a channel in the registers [regs]. *)
Definition fieldOf (regs : Z -> list byte) (c : Channel) : Result Z :=
  Codec.decode (regs (modeOf c)) (offsetOf c) 2 (signedOf c).

End FiveChannels.

(** ** The test program at the end of main.ts *)

Module TestProgram.

Import Uart UartNotations.
Import String.

(** [sensors.navigation1], the fixed instance on port 1. *)
Definition navigation1 (dev : Device) : World := DualLidar.constructor 1 dev.

(** One pass of the [forever] body; the result lists what the three
    [brick.showValue] calls show: label, value, line. *)
Definition body : M (list (string * Z * Z)) :=
  left <- DualLidar.distanceLeft ;;
  right <- DualLidar.distanceRight ;;
  heading <- DualLidar.heading ;;
  ret [("left"%string, left, 1); ("right"%string, right, 2);
       ("heading"%string, heading, 3)].

(** [n] passes of the loop. *)
Fixpoint passes (n : nat) : M (list (list (string * Z * Z))) :=
  match n with
  | O => ret []
  | S k =>
      shown <- body ;;
      later <- passes k ;;
      ret (shown :: later)
  end.

End TestProgram.

(** * Properties *)

(** ** The codec *)

Section CodecFacts.

Import Codec.

Lemma byteValue_range (b : byte) : 0 <= byteValue b < 256.
Proof.
  unfold byteValue. pose proof (Byte.to_N_bounded b) as Hb.
  split; [apply N2Z.is_nonneg | lia].
Qed.

Lemma littleEndian_range (bs : list byte) :
  0 <= littleEndian bs < 256 ^ Z.of_nat (length bs).
Proof.
  induction bs as [|b rest IH].
  - simpl. lia.
  - cbn [littleEndian length]. rewrite Nat2Z.inj_succ, Z.pow_succ_r by lia.
    pose proof (byteValue_range b). lia.
Qed.

Lemma field_length (buffer : list byte) (offset width : nat) :
  (offset + width <= length buffer)%nat ->
  length (field buffer offset width) = width.
Proof.
  intros Hfit. unfold field.
  rewrite length_firstn, length_skipn. lia.
Qed.

Lemma decode_out_of_range (buffer : list byte) (offset width : nat) (sg : bool) :
  (length buffer < offset + width)%nat ->
  decode buffer offset width sg = Fail OutOfRange.
Proof.
  intros Hshort. unfold decode.
  destruct (Nat.ltb_spec (length buffer) (offset + width)); [reflexivity | lia].
Qed.

Lemma decode_unsigned (buffer : list byte) (offset width : nat) :
  (offset + width <= length buffer)%nat ->
  decode buffer offset width false
  = Ok (littleEndian (field buffer offset width)).
Proof.
  intros Hfit. unfold decode.
  destruct (Nat.ltb_spec (length buffer) (offset + width)); [lia | reflexivity].
Qed.

Lemma decode_fits (buffer : list byte) (offset width : nat) (sg : bool) :
  (offset + width <= length buffer)%nat ->
  exists v, decode buffer offset width sg = Ok v.
Proof.
  intros Hfit. unfold decode.
  destruct (Nat.ltb_spec (length buffer) (offset + width)); [lia |].
  destruct (sg && _); eexists; reflexivity.
Qed.

Lemma decode_ok_fits (buffer : list byte) (offset width : nat) (sg : bool) (v : Z) :
  decode buffer offset width sg = Ok v ->
  (offset + width <= length buffer)%nat.
Proof.
  unfold decode.
  destruct (Nat.ltb_spec (length buffer) (offset + width)); [discriminate | lia].
Qed.

(** An unsigned width-2 field is a 16-bit value. *)
Lemma decode_uint16_range (buffer : list byte) (offset : nat) (v : Z) :
  decode buffer offset 2 false = Ok v -> 0 <= v <= 65535.
Proof.
  intros Hd. pose proof (decode_ok_fits _ _ _ _ _ Hd) as Hfit.
  rewrite decode_unsigned in Hd by exact Hfit. injection Hd as <-.
  pose proof (littleEndian_range (field buffer offset 2)) as Hr.
  rewrite field_length in Hr by exact Hfit.
  change (256 ^ Z.of_nat 2) with 65536 in Hr. lia.
Qed.

(** A signed width-2 field is a two's-complement 16-bit value. *)
Lemma decode_int16_range (buffer : list byte) (offset : nat) (v : Z) :
  decode buffer offset 2 true = Ok v -> -32768 <= v <= 32767.
Proof.
  intros Hd. pose proof (decode_ok_fits _ _ _ _ _ Hd) as Hfit.
  unfold decode in Hd.
  destruct (Nat.ltb_spec (length buffer) (offset + 2)); [lia |].
  pose proof (littleEndian_range (field buffer offset 2)) as Hr.
  rewrite field_length in Hr by exact Hfit.
  change (256 ^ Z.of_nat 2) with 65536 in Hr.
  set (u := littleEndian (field buffer offset 2)) in *.
  change (8 * Z.of_nat 2 - 1) with 15 in Hd.
  change (2 ^ (8 * Z.of_nat 2)) with 65536 in Hd.
  cbn [andb] in Hd.
  destruct (Z.testbit u 15) eqn:Hbit; injection Hd as <-.
  - apply Z.testbit_true in Hbit; [| lia].
    change (2 ^ 15) with 32768 in Hbit.
    assert (32768 <= u) by
      (destruct (Z_lt_le_dec u 32768) as [Hlt|]; [| assumption];
       rewrite Z.div_small in Hbit by lia; discriminate).
    lia.
  - assert (u < 32768).
    { destruct (Z_lt_le_dec u 32768) as [|Hge]; [assumption |].
      assert (Z.testbit u 15 = true); [| congruence].
      apply Z.testbit_true; [lia |]. change (2 ^ 15) with 32768.
      assert (u / 32768 = 1) as ->
        by (symmetry; apply Z.div_unique with (r := u - 32768); lia).
      reflexivity. }
    lia.
Qed.

Example decode_int16_negative :
  decode [xff; xff; x00; x80] 0 2 true = Ok (-1)
  /\ decode [xff; xff; x00; x80] 2 2 true = Ok (-32768)
  /\ decode [xff; xff; x00; x80] 0 2 false = Ok 65535
  /\ decode [xff; xff; x00; x80] 3 2 false = Fail OutOfRange.
Proof. repeat split. Qed.

End CodecFacts.

(** ** The threshold detector *)

Section DetectorFacts.

Import ThresholdDetector.

Lemma setLevel_level (value : Z) (d : t) :
  level (fst (setLevel value d)) = classify d value.
Proof. reflexivity. Qed.

Lemma setLevel_thresholds (value : Z) (d : t) :
  lowThreshold (fst (setLevel value d)) = lowThreshold d
  /\ highThreshold (fst (setLevel value d)) = highThreshold d
  /\ id (fst (setLevel value d)) = id d.
Proof. repeat split. Qed.

Lemma classify_low (d : t) (value : Z) :
  value <= lowThreshold d -> classify d value = ThresholdState.Low.
Proof.
  intros Hle. unfold classify.
  destruct (Z.leb_spec value (lowThreshold d)); [reflexivity | lia].
Qed.

Lemma classify_high (d : t) (value : Z) :
  lowThreshold d < highThreshold d -> highThreshold d <= value ->
  classify d value = ThresholdState.High.
Proof.
  intros Hlt Hge. unfold classify.
  destruct (Z.leb_spec value (lowThreshold d)); [lia |].
  destruct (Z.geb_spec value (highThreshold d)); [reflexivity | lia].
Qed.

Lemma classify_normal (d : t) (value : Z) :
  lowThreshold d < value < highThreshold d ->
  classify d value = ThresholdState.Normal.
Proof.
  intros Hin. unfold classify.
  destruct (Z.leb_spec value (lowThreshold d)); [lia |].
  destruct (Z.geb_spec value (highThreshold d)); [lia | reflexivity].
Qed.

Lemma signal_is_a_state (value : Z) (d : t) (s : ThresholdState.t) :
  snd (setLevel value d) = Some s -> 1 <= ThresholdState.value s <= 3.
Proof. intros _. destruct s; simpl; lia. Qed.

End DetectorFacts.

(** ** The mode selector and the accessors *)

Section SelectorFacts.

Import Uart UartNotations Observe.

Lemma selectMode_mode (m : Z) (w : World) : mode (this (selectMode m w)) = m.
Proof.
  unfold selectMode.
  destruct (Z.eqb_spec m (mode (this w))); [congruence | reflexivity].
Qed.

Lemma selectMode_commands (m : Z) (w : World) :
  commands (uart (selectMode m w))
  = commands (uart w) ++ (if m =? mode (this w) then [] else [m]).
Proof.
  unfold selectMode.
  destruct (m =? mode (this w)); [now rewrite app_nil_r | reflexivity].
Qed.

Lemma selectMode_same (m : Z) (w : World) :
  mode (this w) = m -> selectMode m w = w.
Proof. intros <-. unfold selectMode. now rewrite Z.eqb_refl. Qed.

Lemma selectMode_idempotent (m : Z) (w : World) :
  selectMode m (selectMode m w) = selectMode m w.
Proof. apply selectMode_same, selectMode_mode. Qed.

(** Selecting a mode touches neither the thresholds, nor the source id, nor
    the bus, nor the register contents. *)
Lemma selectMode_frame (m : Z) (w : World) :
  bus (selectMode m w) = bus w
  /\ promixityThreshold (this (selectMode m w)) = promixityThreshold (this w)
  /\ movementThreshold (this (selectMode m w)) = movementThreshold (this w)
  /\ _id (this (selectMode m w)) = _id (this w)
  /\ registers (uart (selectMode m w)) = registers (uart w).
Proof. unfold selectMode. destruct (m =? mode (this w)); repeat split. Qed.

Lemma selectMode_active (m : Z) (w : World) :
  inSync w -> activeMode (uart (selectMode m w)) = m.
Proof.
  unfold inSync, selectMode. intros Hs.
  destruct (Z.eqb_spec m (mode (this w))); [congruence | reflexivity].
Qed.

Lemma selectMode_inSync (m : Z) (w : World) :
  inSync w -> inSync (selectMode m w).
Proof.
  intros Hs. unfold inSync.
  now rewrite selectMode_active, selectMode_mode.
Qed.

Lemma issued_app (w w' : World) (cs : list Z) :
  commands (uart w') = commands (uart w) ++ cs -> issued w w' = cs.
Proof.
  intros E. unfold issued. rewrite E, skipn_app, skipn_all, Nat.sub_diag.
  reflexivity.
Qed.

Lemma raised_app (w w' : World) (evs : list (Z * Z)) :
  bus w' = bus w ++ evs -> raised w w' = evs.
Proof.
  intros E. unfold raised. rewrite E, skipn_app, skipn_all, Nat.sub_diag.
  reflexivity.
Qed.

(** Every accessor of the three drivers has this shape. *)
Lemma accessor_reads (m : Z) (fmt : Codec.NumberFormat) (off : nat) (w : World) :
  inSync w ->
  readsField (_setMode m ;; getNumber fmt off) m off
             (Codec.width fmt) (Codec.signed fmt) w.
Proof.
  intros Hs. unfold readsField.
  split; [apply selectMode_mode |].
  split; [now apply selectMode_active |].
  unfold bind, _setMode, modify, getNumber, readRegisters.
  rewrite (selectMode_active m w Hs).
  destruct (selectMode_frame m w) as (_ & _ & _ & _ & ->).
  reflexivity.
Qed.

Lemma constructed_inSync (unset m port movement : Z)
      (d : ThresholdDetector.t) (dev : Device) :
  m <> unset -> inSync (selectMode m (super port unset d movement dev)).
Proof.
  intros Hne. unfold inSync, selectMode, super. cbn.
  destruct (Z.eqb_spec m unset); [contradiction | reflexivity].
Qed.

End SelectorFacts.

(** ** The update hook *)

Section UpdateFacts.

Import Uart UartNotations Observe.

Lemma setLevel_run (curr : Z) (w : World) :
  Uart.setLevel curr w
  = Return tt
      (mkWorld (withProximity
                  (fst (ThresholdDetector.setLevel curr (promixityThreshold (this w))))
                  (this w))
               (uart w) (bus w ++ levelSignal curr w)).
Proof.
  unfold Uart.setLevel, levelSignal, raiseEvent, modify, raise, withThis.
  destruct (snd (ThresholdDetector.setLevel curr (promixityThreshold (this w))));
    cbn; [reflexivity | now rewrite app_nil_r].
Qed.

Lemma when_raise (c : bool) (src : World -> Z) (code : Z) (w : World) :
  when c (fun w0 => raiseEvent (src w0) code w0) w
  = Return tt (mkWorld (this w) (uart w)
                       (bus w ++ (if c then [(src w, code)] else []))).
Proof.
  destruct c; cbn; [reflexivity |].
  rewrite app_nil_r. now destruct w.
Qed.

(** No level signal carries the code of ObjectDetected. *)
Lemma levelSignal_not_detected (curr src : Z) (w : World) :
  ~ In (src, 10) (levelSignal curr w).
Proof.
  unfold levelSignal.
  destruct (snd (ThresholdDetector.setLevel curr (promixityThreshold (this w))))
    as [s|]; cbn; [| tauto].
  intros [E | []]. injection E as _ E. destruct s; discriminate.
Qed.

(** A detector that already is at the level of [curr] signals nothing. *)
Lemma levelSignal_steady (curr : Z) (w : World) :
  ThresholdDetector.level (promixityThreshold (this w))
  = ThresholdDetector.classify (promixityThreshold (this w)) curr ->
  levelSignal curr w = [].
Proof.
  intros E. unfold levelSignal, ThresholdDetector.setLevel. cbn. rewrite <- E.
  now destruct (ThresholdDetector.level (promixityThreshold (this w))).
Qed.

Lemma abs_swap (prev curr : Z) : Z.abs (prev - curr) = Z.abs (curr - prev).
Proof. lia. Qed.

(** The trace of the single-threshold hook, main.ts. *)
Lemma five_update_run (prev curr : Z) (w : World) :
  FiveLidar._update prev curr w
  = Return tt
      (mkWorld (withProximity
                  (fst (ThresholdDetector.setLevel curr (promixityThreshold (this w))))
                  (this w))
               (uart w)
               (bus w ++ levelSignal curr w
                  ++ signal (Z.abs (curr - prev) >? movementThreshold (this w))
                            10 w)).
Proof.
  unfold FiveLidar._update, bind. rewrite setLevel_run.
  unfold gets, FiveLidar.raiseOwn.
  rewrite when_raise. cbn. rewrite abs_swap, <- app_assoc. reflexivity.
Qed.

(** The trace of the single-threshold hook, navigation-sensor.ts, second
    document. *)
Lemma legacy_update_run (prev curr : Z) (w : World) :
  LegacyLidar._update prev curr w
  = Return tt
      (mkWorld (withProximity
                  (fst (ThresholdDetector.setLevel curr (promixityThreshold (this w))))
                  (this w))
               (uart w)
               (bus w ++ levelSignal curr w
                  ++ signal (Z.abs (curr - prev) >? movementThreshold (this w))
                            10 w)).
Proof.
  unfold LegacyLidar._update, bind. rewrite setLevel_run.
  unfold gets, LegacyLidar.raiseOwn.
  rewrite when_raise. cbn. rewrite abs_swap, <- app_assoc. reflexivity.
Qed.

(** The trace of the dual-lidar hook when both re-reads succeed. *)
Lemma dual_update_run (prev curr right left : Z) (w : World) :
  inSync w ->
  Codec.decode (registers (uart w) 0) 2 2 false = Ok right ->
  Codec.decode (registers (uart w) 0) 0 2 false = Ok left ->
  exists w',
    DualLidar._update prev curr w = Return tt w'
    /\ promixityThreshold (this w')
       = fst (ThresholdDetector.setLevel curr (promixityThreshold (this w)))
    /\ movementThreshold (this w') = movementThreshold (this w)
    /\ _id (this w') = _id (this w)
    /\ mode (this w') = 0
    /\ uart w' = uart (selectMode 0 w)
    /\ bus w'
       = bus w ++ levelSignal curr w
           ++ signal (Z.abs (curr - prev) >? movementThreshold (this w)) 10 w
           ++ signal (right <? ThresholdDetector.lowThreshold
                                 (promixityThreshold (this w))) 5 w
           ++ signal (left <? ThresholdDetector.lowThreshold
                                (promixityThreshold (this w))) 4 w.
Proof.
  intros Hs Hr Hl.
  unfold DualLidar._update, bind. rewrite setLevel_run.
  unfold gets, DualLidar.raiseOwn. rewrite when_raise. cbn.
  unfold DualLidar.distanceRight, DualLidar.distanceLeft, bind, _setMode,
    modify, getNumber, readRegisters, selectMode.
  cbn.
  destruct w as [[sid md prox mov] [act regs cmds] evs].
  unfold inSync in Hs. cbn in *. subst act.
  unfold when, raiseEvent, modify, ret, signal.
  destruct md as [|p|p]; cbn; rewrite ?Hr; cbn;
    destruct (right <? ThresholdDetector.lowThreshold prox); cbn;
    rewrite ?Hl; cbn;
    destruct (left <? ThresholdDetector.lowThreshold prox); cbn;
    eexists; (split; [reflexivity |]); cbn;
    rewrite abs_swap, <- ?app_assoc, ?app_nil_r;
    repeat split; reflexivity.
Qed.

(** Setting the low threshold within the ordering invariant. *)
Lemma setLowThreshold_accept (value : Z) (w : World) :
  ThresholdDetector.ordered
    (ThresholdDetector.withLowThreshold value (promixityThreshold (this w)))
  = true ->
  Uart.setLowThreshold value w
  = Return tt
      (withThis (withProximity
                   (ThresholdDetector.withLowThreshold
                      value (promixityThreshold (this w)))
                   (this w)) w).
Proof.
  intros Hord. unfold Uart.setLowThreshold, ThresholdDetector.setLowThreshold.
  now rewrite Hord.
Qed.

(** Setting it outside: rejected, nothing changes. *)
Lemma setLowThreshold_reject (value : Z) (w : World) :
  ThresholdDetector.ordered
    (ThresholdDetector.withLowThreshold value (promixityThreshold (this w)))
  = false ->
  Uart.setLowThreshold value w = Throw InvalidThreshold w.
Proof.
  intros Hord. unfold Uart.setLowThreshold, ThresholdDetector.setLowThreshold.
  now rewrite Hord.
Qed.

(** The dual-lidar scenario of the spec's section 8: a left range of 50 mm
    against the low threshold 100 raises ObjectNearLeft, a right range of
    2000 mm does not raise ObjectNearRight. *)
Example dual_scenario :
  let w := DualLidar.constructor 2 (device [x32; x00; xd0; x07; x00; x00] []) in
  DualLidar.distanceLeft w = Return 50 w
  /\ DualLidar.distanceRight w = Return 2000 w
  /\ raised w (world (DualLidar._update 50 50 w)) = [(2, 3); (2, 4)].
Proof. repeat split. Qed.

End UpdateFacts.

(** * The claims *)

Section Claims.

Import Uart UartNotations Observe.

Local Notation "'NAV1'" :=
  (DualLidar.NavigationSensorMode.value DualLidar.NavigationSensorMode.NAV1).
Local Notation "'NAV2'" :=
  (DualLidar.NavigationSensorMode.value DualLidar.NavigationSensorMode.NAV2).
Local Notation "'RANGE'" :=
  (FiveLidar.NavigationSensorMode.value FiveLidar.NavigationSensorMode.RANGE).
Local Notation "'HEADING'" :=
  (FiveLidar.NavigationSensorMode.value FiveLidar.NavigationSensorMode.HEADING).
Local Notation "'dualEvent'" := DualLidar.NavigationSensorEvent.value.
Local Notation "'fiveEvent'" := FiveLidar.NavigationSensorEvent.value.
Local Notation "'legacyEvent'" := LegacyLidar.NavigationSensorEvent.value.

(** C8: decoding the buffer [0x64, 0x00, 0x2C, 0x01] as an unsigned
    little-endian width-2 field yields 100 at offset 0 and 300 at offset 2,
    and the dual-lidar range accessors return exactly these values from such
    a buffer; the decode fails with OutOfRange whenever offset + width
    exceeds the buffer length, and succeeds otherwise. *)
Theorem C8_decode_uint16 :
  Codec.decode [x64; x00; x2c; x01] 0 2 false = Ok 100
  /\ Codec.decode [x64; x00; x2c; x01] 2 2 false = Ok 300
  /\ (exists w1 w2,
        DualLidar.distanceLeft
          (DualLidar.constructor 1 (device [x64; x00; x2c; x01] []))
        = Return 100 w1
        /\ DualLidar.distanceRight
             (DualLidar.constructor 1 (device [x64; x00; x2c; x01] []))
           = Return 300 w2)
  /\ (forall buffer offset width sg,
        (length buffer < offset + width)%nat ->
        Codec.decode buffer offset width sg = Fail OutOfRange)
  /\ (forall buffer offset width sg,
        (offset + width <= length buffer)%nat ->
        exists v, Codec.decode buffer offset width sg = Ok v).
Proof.
  split; [reflexivity |]. split; [reflexivity |].
  split; [do 2 eexists; split; reflexivity |].
  split; [apply decode_out_of_range | apply decode_fits].
Qed.

Lemma C8_decode_uint16_witness :
  Codec.decode [x64; x00; x2c] 2 2 false = Fail OutOfRange
  /\ exists v, Codec.decode [x64; x00; x2c] 1 2 true = Ok v.
Proof.
  destruct C8_decode_uint16 as (_ & _ & _ & Hshort & Hfits).
  split; [apply Hshort; simpl; lia | apply Hfits; simpl; lia].
Defined.

(** C9: the event codes are ObjectDetected = 10 and ObjectNear = the code of
    the detector's Low state in every driver; the dual-lidar driver adds
    ObjectNearLeft = 4 and ObjectNearRight = 5, and no event of the other two
    drivers has the code 4 or 5. *)
Theorem C9_event_codes :
  (dualEvent DualLidar.NavigationSensorEvent.ObjectDetected = 10
   /\ dualEvent DualLidar.NavigationSensorEvent.ObjectNear
      = ThresholdState.value ThresholdState.Low
   /\ dualEvent DualLidar.NavigationSensorEvent.ObjectNearLeft = 4
   /\ dualEvent DualLidar.NavigationSensorEvent.ObjectNearRight = 5)
  /\ (fiveEvent FiveLidar.NavigationSensorEvent.ObjectDetected = 10
      /\ fiveEvent FiveLidar.NavigationSensorEvent.ObjectNear
         = ThresholdState.value ThresholdState.Low
      /\ forall e, fiveEvent e <> 4 /\ fiveEvent e <> 5)
  /\ (legacyEvent LegacyLidar.NavigationSensorEvent.ObjectDetected = 10
      /\ legacyEvent LegacyLidar.NavigationSensorEvent.ObjectNear
         = ThresholdState.value ThresholdState.Low
      /\ forall e, legacyEvent e <> 4 /\ legacyEvent e <> 5)
  /\ ThresholdState.value ThresholdState.Low = 3.
Proof.
  repeat split; try reflexivity; destruct e; discriminate.
Qed.

(** C4: the detector the dual-lidar constructor builds has lowThreshold 100
    and highThreshold 1500 and starts Normal; whatever its current level,
    setLevel 99 and setLevel 100 leave it Low, setLevel 101 and setLevel 1499
    Normal, setLevel 1500 High.  In general, for a detector with
    lowThreshold < highThreshold, a value <= lowThreshold maps to Low, a
    value >= highThreshold to High, and any other value to Normal. *)
Theorem C4_setLevel_boundaries (d : ThresholdDetector.t) (value : Z)
        (Hlt : ThresholdDetector.lowThreshold d < ThresholdDetector.highThreshold d) :
  let after v x := ThresholdDetector.level (fst (ThresholdDetector.setLevel v x)) in
  (value <= ThresholdDetector.lowThreshold d ->
   after value d = ThresholdState.Low)
  /\ (ThresholdDetector.highThreshold d <= value ->
      after value d = ThresholdState.High)
  /\ (ThresholdDetector.lowThreshold d < value < ThresholdDetector.highThreshold d ->
      after value d = ThresholdState.Normal)
  /\ (forall port dev current,
        let d0 := promixityThreshold (this (DualLidar.constructor port dev)) in
        let d1 := ThresholdDetector.withLevel current d0 in
        ThresholdDetector.lowThreshold d0 = 100
        /\ ThresholdDetector.highThreshold d0 = 1500
        /\ ThresholdDetector.level d0 = ThresholdState.Normal
        /\ after 99 d1 = ThresholdState.Low
        /\ after 100 d1 = ThresholdState.Low
        /\ after 101 d1 = ThresholdState.Normal
        /\ after 1499 d1 = ThresholdState.Normal
        /\ after 1500 d1 = ThresholdState.High).
Proof.
  cbv beta zeta. rewrite !setLevel_level.
  split; [apply classify_low |].
  split; [now apply classify_high |].
  split; [apply classify_normal |].
  intros port dev current. repeat split.
Qed.

Lemma C4_setLevel_boundaries_witness :
  let d0 := promixityThreshold (this (DualLidar.constructor 1 bench)) in
  ThresholdDetector.lowThreshold d0 < ThresholdDetector.highThreshold d0
  /\ ThresholdDetector.level (fst (ThresholdDetector.setLevel 100 d0))
     = ThresholdState.Low
  /\ ThresholdDetector.level (fst (ThresholdDetector.setLevel 1500 d0))
     = ThresholdState.High
  /\ ThresholdDetector.level (fst (ThresholdDetector.setLevel 101 d0))
     = ThresholdState.Normal.
Proof.
  cbv zeta.
  assert (Hlt : ThresholdDetector.lowThreshold
                  (promixityThreshold (this (DualLidar.constructor 1 bench)))
                < ThresholdDetector.highThreshold
                    (promixityThreshold (this (DualLidar.constructor 1 bench))))
    by (vm_compute; reflexivity).
  split; [exact Hlt |].
  split; [apply (C4_setLevel_boundaries _ 100 Hlt); vm_compute; discriminate |].
  split; [apply (C4_setLevel_boundaries _ 1500 Hlt); vm_compute; discriminate |].
  apply (C4_setLevel_boundaries _ 101 Hlt); vm_compute; split; reflexivity.
Defined.

(** C5, as stated, fails: a driver whose current mode is NAV1 issues no
    command at all over two successive calls with NAV1, not exactly one. *)
Lemma C5_counterexample :
  let w := DualLidar.constructor 1 bench in
  mode (this w) = NAV1
  /\ issued w (selectMode NAV1 (selectMode NAV1 w)) = []
  /\ length (issued w (selectMode NAV1 (selectMode NAV1 w))) <> 1%nat.
Proof. cbv zeta. repeat split. vm_compute. discriminate. Qed.

(** C5, amended: the mode selector issues a command if and only if the
    requested mode differs from the current one, always leaves the current
    mode at the requested one, and is idempotent.  From the unset mode two
    successive calls with NAV1 issue exactly one command (none on the second
    call); from the current mode NAV1 they issue none.  In both cases a
    following call with NAV2 issues exactly one further command and makes
    NAV2 the current mode. *)
Theorem C5_mode_selection (requested : Z) (w : World) :
  _setMode requested w = Return tt (selectMode requested w)
  /\ issued w (selectMode requested w)
     = (if requested =? mode (this w) then [] else [requested])
  /\ mode (this (selectMode requested w)) = requested
  /\ selectMode requested (selectMode requested w) = selectMode requested w
  /\ (mode (this w) = DualLidar.NavigationSensorMode.value
                        DualLidar.NavigationSensorMode.None ->
      issued w (selectMode NAV1 w) = [NAV1]
      /\ issued (selectMode NAV1 w) (selectMode NAV1 (selectMode NAV1 w)) = []
      /\ issued w (selectMode NAV1 (selectMode NAV1 w)) = [NAV1])
  /\ (mode (this w) = NAV1 ->
      issued w (selectMode NAV1 w) = []
      /\ issued (selectMode NAV1 w) (selectMode NAV1 (selectMode NAV1 w)) = []
      /\ issued w (selectMode NAV1 (selectMode NAV1 w)) = [])
  /\ (let w2 := selectMode NAV1 (selectMode NAV1 w) in
      issued w2 (selectMode NAV2 w2) = [NAV2]
      /\ mode (this (selectMode NAV2 w2)) = NAV2).
Proof.
  assert (Hstep : forall m v, issued v (selectMode m v)
                              = (if m =? mode (this v) then [] else [m]))
    by (intros m v; apply issued_app, selectMode_commands).
  split; [reflexivity |].
  split; [apply Hstep |].
  split; [apply selectMode_mode |].
  split; [apply selectMode_idempotent |].
  split; [| split].
  - intros Hunset.
    split; [now rewrite Hstep, Hunset |].
    split; [now rewrite Hstep, selectMode_mode |].
    now rewrite selectMode_idempotent, Hstep, Hunset.
  - intros Hnav.
    split; [now rewrite Hstep, Hnav |].
    split; [now rewrite Hstep, selectMode_mode |].
    now rewrite selectMode_idempotent, Hstep, Hnav.
  - cbv zeta. rewrite Hstep, !selectMode_mode. repeat split.
Qed.

Lemma C5_mode_selection_witness :
  let fresh := super 1 (-1) (ThresholdDetector.new 1 0 2500 100 1500) 1 bench in
  let w := DualLidar.constructor 1 bench in
  mode (this fresh) = -1 /\ mode (this w) = 0
  /\ issued fresh (selectMode 0 (selectMode 0 fresh)) = [0]
  /\ issued w (selectMode 0 (selectMode 0 w)) = [].
Proof.
  cbv zeta. split; [reflexivity |]. split; [reflexivity |]. split.
  - apply (C5_mode_selection 0
             (super 1 (-1) (ThresholdDetector.new 1 0 2500 100 1500) 1 bench)).
    reflexivity.
  - apply (C5_mode_selection 0 (DualLidar.constructor 1 bench)). reflexivity.
Defined.

(** C7: every range accessor first selects the range mode (RANGE in the
    five-lidar driver, NAV1 in the dual-lidar one) and then decodes an
    unsigned width-2 field of that mode's buffer at its own offset: front
    left 0, front right 2, left side 4, right side 6, rear 8; left 0,
    right 2.  The field is little-endian, so the value is a 16-bit number of
    millimeters, and with a buffer that holds the field the accessor
    returns. *)
Theorem C7_range_accessors (w : World) (Hsync : inSync w) :
  readsField FiveLidar.distanceFrontLeft RANGE 0 2 false w
  /\ readsField FiveLidar.distanceFrontRight RANGE 2 2 false w
  /\ readsField FiveLidar.distanceLeftSide RANGE 4 2 false w
  /\ readsField FiveLidar.distanceRightSide RANGE 6 2 false w
  /\ readsField FiveLidar.distanceRear RANGE 8 2 false w
  /\ readsField DualLidar.distanceLeft NAV1 0 2 false w
  /\ readsField DualLidar.distanceRight NAV1 2 2 false w
  /\ (forall buffer off v,
        Codec.decode buffer off 2 false = Ok v ->
        v = Codec.littleEndian (Codec.field buffer off 2) /\ 0 <= v <= 65535)
  /\ (forall buffer off,
        (off + 2 <= length buffer)%nat ->
        exists v, Codec.decode buffer off 2 false = Ok v).
Proof.
  repeat (split; [exact (accessor_reads _ Codec.UInt16LE _ w Hsync) |]).
  split.
  - intros buffer off v Hd. split; [| now apply decode_uint16_range in Hd].
    rewrite decode_unsigned in Hd by (now apply decode_ok_fits in Hd).
    now injection Hd.
  - intros buffer off Hfit. now apply decode_fits.
Qed.

Lemma C7_range_accessors_witness :
  let w := FiveLidar.constructor 1 bench in
  inSync w
  /\ FiveLidar.distanceRear w = Return 40 (selectMode RANGE w)
  /\ FiveLidar.distanceRightSide w = Return 2000 (selectMode RANGE w).
Proof.
  cbv zeta.
  assert (Hsync : inSync (FiveLidar.constructor 1 bench)) by reflexivity.
  destruct (C7_range_accessors _ Hsync)
    as (_ & _ & _ & (_ & _ & Hside) & (_ & _ & Hrear) & _).
  split; [exact Hsync |]. split; [exact Hrear | exact Hside].
Defined.

(** C10: _query decodes the width-2 field at offset 0 of whatever buffer
    the device exposes now (signed in main.ts, unsigned in
    navigation-sensor.ts); it selects no mode and leaves the driver, the
    device and the bus as they were.  So it returns the primary channel
    (heading, respectively the left range) while the mode the constructor
    chose is the current one, and after an accessor has selected another mode
    [m] it returns the first field of the buffer of [m]. *)
Theorem C10_query_frame (w : World) :
  FiveLidar._query w
  = match Codec.decode (readRegisters (uart w)) 0 2 true with
    | Ok v => Return v w
    | Fail e => Throw e w
    end
  /\ DualLidar._query w
     = match Codec.decode (readRegisters (uart w)) 0 2 false with
       | Ok v => Return v w
       | Fail e => Throw e w
       end
  /\ world (FiveLidar._query w) = w
  /\ world (DualLidar._query w) = w
  /\ (forall port dev,
        FiveLidar._query (FiveLidar.constructor port dev)
        = FiveLidar.heading (FiveLidar.constructor port dev)
        /\ DualLidar._query (DualLidar.constructor port dev)
           = DualLidar.distanceLeft (DualLidar.constructor port dev))
  /\ (inSync w ->
      (mode (this w) = HEADING -> FiveLidar._query w = FiveLidar.heading w)
      /\ (mode (this w) = NAV1 -> DualLidar._query w = DualLidar.distanceLeft w)
      /\ forall m,
          FiveLidar._query (selectMode m w)
          = match Codec.decode (registers (uart w) m) 0 2 true with
            | Ok v => Return v (selectMode m w)
            | Fail e => Throw e (selectMode m w)
            end
          /\ DualLidar._query (selectMode m w)
             = match Codec.decode (registers (uart w) m) 0 2 false with
               | Ok v => Return v (selectMode m w)
               | Fail e => Throw e (selectMode m w)
               end).
Proof.
  assert (Hfive : forall v, world (FiveLidar._query v) = v)
    by (intros v; unfold FiveLidar._query, getNumber;
        now destruct (Codec.decode _ _ _ _)).
  assert (Hdual : forall v, world (DualLidar._query v) = v)
    by (intros v; unfold DualLidar._query, getNumber;
        now destruct (Codec.decode _ _ _ _)).
  assert (Hsame : forall (fmt : Codec.NumberFormat) (off : nat) m v,
             mode (this v) = m ->
             (_setMode m ;; getNumber fmt off) v = getNumber fmt off v)
    by (intros fmt off m v Hm; unfold bind, _setMode, modify;
        now rewrite selectMode_same).
  split; [reflexivity |]. split; [reflexivity |].
  split; [apply Hfive |]. split; [apply Hdual |].
  split.
  - intros port dev. split; symmetry; apply Hsame, selectMode_mode.
  - intros Hsync. split; [| split].
    + intros Hm. symmetry. now apply Hsame.
    + intros Hm. symmetry. now apply Hsame.
    + intros m.
      unfold FiveLidar._query, DualLidar._query, getNumber, readRegisters.
      rewrite (selectMode_active m w Hsync).
      destruct (selectMode_frame m w) as (_ & _ & _ & _ & ->).
      split; reflexivity.
Qed.

Lemma C10_query_frame_witness :
  let w := FiveLidar.constructor 1 bench in
  inSync w /\ mode (this w) = HEADING
  /\ FiveLidar._query w = FiveLidar.heading w
  /\ FiveLidar._query (selectMode RANGE w) = Return 100 (selectMode RANGE w).
Proof.
  cbv zeta.
  assert (Hsync : inSync (FiveLidar.constructor 1 bench)) by reflexivity.
  destruct (C10_query_frame (FiveLidar.constructor 1 bench))
    as (_ & _ & _ & _ & _ & H).
  destruct (H Hsync) as (Hprimary & _ & Hother).
  split; [exact Hsync |]. split; [reflexivity |].
  split; [apply Hprimary; reflexivity |].
  exact (proj1 (Hother RANGE)).
Defined.

(** C3, as stated, fails twice.  In the dual-lidar driver heading() selects
    NAV1, the range mode, and returns the field at offset 4, not offset 0 of
    the heading mode NAV2.  In the five-lidar driver the accessors return
    whatever 16-bit value the device sends: -1 for heading, 200 for pitch,
    -32768 for roll. *)
Lemma C3_counterexample :
  let wd := DualLidar.constructor 1 stray in
  let wf := FiveLidar.constructor 1 stray in
  (DualLidar.heading wd = Return 90 wd
   /\ mode (this wd) = NAV1 /\ activeMode (uart wd) = NAV1
   /\ Codec.decode (registers (uart wd) NAV1) 4 2 false = Ok 90
   /\ Codec.decode (registers (uart wd) NAV1) 0 2 false = Ok 10
   /\ Codec.decode (registers (uart wd) NAV2) 0 2 false = Ok 65535)
  /\ (FiveLidar.heading wf = Return (-1) wf /\ ~ (0 <= -1 < 360))
  /\ (FiveLidar.pitch wf = Return 200 wf /\ ~ (-90 <= 200 <= 89))
  /\ (FiveLidar.roll wf = Return (-32768) wf /\ ~ (-180 <= -32768 <= 179)).
Proof. cbv zeta. repeat split; try reflexivity; lia. Qed.

(** C3, amended: in the five-lidar driver heading(), pitch() and roll() each
    select HEADING before reading and decode a signed width-2 field at the
    offsets 0, 2 and 4; in the two NAV1/NAV2 drivers heading() selects NAV1
    and decodes an unsigned width-2 field at offset 4, and these drivers
    have no pitch() and no roll().  The accessors return the decoded field
    as it is: a signed field lies in [-32768, 32767] and an unsigned one in
    [0, 65535]; they confine it no further. *)
Theorem C3_angle_accessors (w : World) (Hsync : inSync w) :
  readsField FiveLidar.heading HEADING 0 2 true w
  /\ readsField FiveLidar.pitch HEADING 2 2 true w
  /\ readsField FiveLidar.roll HEADING 4 2 true w
  /\ readsField DualLidar.heading NAV1 4 2 false w
  /\ readsField LegacyLidar.heading NAV1 4 2 false w
  /\ (forall buffer off v,
        Codec.decode buffer off 2 true = Ok v -> -32768 <= v <= 32767)
  /\ (forall buffer off v,
        Codec.decode buffer off 2 false = Ok v -> 0 <= v <= 65535).
Proof.
  repeat (split; [exact (accessor_reads _ Codec.Int16LE _ w Hsync) |]).
  repeat (split; [exact (accessor_reads _ Codec.UInt16LE _ w Hsync) |]).
  split; [exact decode_int16_range | exact decode_uint16_range].
Qed.

Lemma C3_angle_accessors_witness :
  let w := FiveLidar.constructor 1 bench in
  inSync w
  /\ FiveLidar.roll w = Return (-1) (selectMode HEADING w)
  /\ DualLidar.heading (DualLidar.constructor 1 bench)
     = Return 50 (selectMode NAV1 (DualLidar.constructor 1 bench)).
Proof.
  cbv zeta.
  assert (Hf : inSync (FiveLidar.constructor 1 bench)) by reflexivity.
  assert (Hd : inSync (DualLidar.constructor 1 bench)) by reflexivity.
  split; [exact Hf |]. split.
  - destruct (C3_angle_accessors _ Hf) as (_ & _ & (_ & _ & Hroll) & _).
    exact Hroll.
  - destruct (C3_angle_accessors _ Hd) as (_ & _ & _ & (_ & _ & Hhead) & _).
    exact Hhead.
Defined.

(** C1: on every poll the dual-lidar _update(prev, curr) feeds curr into
    the proximity detector with setLevel, then raises ObjectDetected exactly
    when |curr - prev| > movementThreshold, then ObjectNearRight exactly when
    the re-read right range is below the detector's low threshold, then
    ObjectNearLeft exactly when the re-read left range is; the two range
    checks come after the setLevel of the primary channel and do not replace
    it.  The single-threshold _update performs the first two steps only: it
    reads nothing and sends the device nothing. *)
Theorem C1_update_steps (prev curr right left : Z) (w : World)
        (Hsync : inSync w)
        (Hright : Codec.decode (registers (uart w) NAV1) 2 2 false = Ok right)
        (Hleft : Codec.decode (registers (uart w) NAV1) 0 2 false = Ok left) :
  let d := promixityThreshold (this w) in
  let low := ThresholdDetector.lowThreshold d in
  let moved := Z.abs (curr - prev) >? movementThreshold (this w) in
  (exists w',
      DualLidar._update prev curr w = Return tt w'
      /\ promixityThreshold (this w') = fst (ThresholdDetector.setLevel curr d)
      /\ raised w w'
         = levelSignal curr w
             ++ signal moved
                  (dualEvent DualLidar.NavigationSensorEvent.ObjectDetected) w
             ++ signal (right <? low)
                  (dualEvent DualLidar.NavigationSensorEvent.ObjectNearRight) w
             ++ signal (left <? low)
                  (dualEvent DualLidar.NavigationSensorEvent.ObjectNearLeft) w)
  /\ DualLidar.distanceRight w = Return right (selectMode NAV1 w)
  /\ DualLidar.distanceLeft w = Return left (selectMode NAV1 w)
  /\ (exists w',
         FiveLidar._update prev curr w = Return tt w'
         /\ promixityThreshold (this w') = fst (ThresholdDetector.setLevel curr d)
         /\ uart w' = uart w
         /\ raised w w'
            = levelSignal curr w
                ++ signal moved
                     (fiveEvent FiveLidar.NavigationSensorEvent.ObjectDetected) w)
  /\ (exists w',
         LegacyLidar._update prev curr w = Return tt w'
         /\ promixityThreshold (this w') = fst (ThresholdDetector.setLevel curr d)
         /\ uart w' = uart w
         /\ raised w w'
            = levelSignal curr w
                ++ signal moved
                     (legacyEvent LegacyLidar.NavigationSensorEvent.ObjectDetected) w).
Proof.
  cbv zeta.
  destruct (dual_update_run prev curr right left w Hsync Hright Hleft)
    as (w' & Hrun & Hprox & _ & _ & _ & _ & Hbus).
  split; [exists w'; repeat split; [exact Hrun | exact Hprox |
                                    now apply raised_app] |].
  split.
  { destruct (accessor_reads NAV1 Codec.UInt16LE 2 w Hsync) as (_ & _ & E).
    cbn [Codec.width Codec.signed] in E. now rewrite Hright in E. }
  split.
  { destruct (accessor_reads NAV1 Codec.UInt16LE 0 w Hsync) as (_ & _ & E).
    cbn [Codec.width Codec.signed] in E. now rewrite Hleft in E. }
  split.
  - eexists. split; [apply five_update_run |].
    repeat split. now apply raised_app.
  - eexists. split; [apply legacy_update_run |].
    repeat split. now apply raised_app.
Qed.

Lemma C1_update_steps_witness :
  let w := DualLidar.constructor 1 stray in
  inSync w
  /\ Codec.decode (registers (uart w) NAV1) 2 2 false = Ok 50
  /\ Codec.decode (registers (uart w) NAV1) 0 2 false = Ok 10
  /\ exists w',
      DualLidar._update 300 10 w = Return tt w'
      /\ raised w w' = [(1, 3); (1, 10); (1, 5); (1, 4)].
Proof.
  cbv zeta.
  assert (Hsync : inSync (DualLidar.constructor 1 stray)) by reflexivity.
  split; [exact Hsync |]. split; [reflexivity |]. split; [reflexivity |].
  destruct (C1_update_steps 300 10 50 10 (DualLidar.constructor 1 stray)
              Hsync eq_refl eq_refl) as ((w' & Hrun & _ & Hraised) & _).
  exists w'. split; [exact Hrun | exact Hraised].
Defined.

(** C6, as stated, fails: with movementThreshold = 1 an update from 10 to 10
    does raise events in the dual-lidar driver when a lidar reads below the
    low threshold.  Here the detector already is Low, the right range is 50
    and the left range 10, against a low threshold of 100. *)
Lemma C6_counterexample :
  let w := world (DualLidar._update 10 10 (DualLidar.constructor 1 stray)) in
  movementThreshold (this w) = 1
  /\ ThresholdDetector.level (promixityThreshold (this w)) = ThresholdState.Low
  /\ (exists w', DualLidar._update 10 10 w = Return tt w')
  /\ raised w (world (DualLidar._update 10 10 w)) = [(1, 5); (1, 4)]
  /\ raised w (world (DualLidar._update 10 10 w)) <> [].
Proof.
  cbv zeta. split; [reflexivity |]. split; [reflexivity |].
  split; [eexists; reflexivity |]. split; [reflexivity |].
  vm_compute. discriminate.
Qed.

(** C6, amended: with movementThreshold = 1, an update from 10 to 12 raises
    ObjectDetected and an update from 10 to 10 raises no ObjectDetected, in
    every driver.  The update from 10 to 10 raises nothing at all in the
    single-threshold drivers when the detector already is at the level of
    10; the dual-lidar driver still raises ObjectNearRight and ObjectNearLeft
    for ranges below the low threshold. *)
Theorem C6_movement_detection (w : World)
        (Hmove : movementThreshold (this w) = 1) :
  let detected := (_id (this w), 10) in
  let steady :=
    ThresholdDetector.level (promixityThreshold (this w))
    = ThresholdDetector.classify (promixityThreshold (this w)) 10 in
  (exists w', FiveLidar._update 10 12 w = Return tt w'
              /\ In detected (raised w w'))
  /\ (exists w', LegacyLidar._update 10 12 w = Return tt w'
                 /\ In detected (raised w w'))
  /\ (exists w', FiveLidar._update 10 10 w = Return tt w'
                 /\ (forall src, ~ In (src, 10) (raised w w'))
                 /\ (steady -> raised w w' = []))
  /\ (exists w', LegacyLidar._update 10 10 w = Return tt w'
                 /\ (forall src, ~ In (src, 10) (raised w w'))
                 /\ (steady -> raised w w' = []))
  /\ (forall right left,
        inSync w ->
        Codec.decode (registers (uart w) NAV1) 2 2 false = Ok right ->
        Codec.decode (registers (uart w) NAV1) 0 2 false = Ok left ->
        (exists w', DualLidar._update 10 12 w = Return tt w'
                    /\ In detected (raised w w'))
        /\ (exists w', DualLidar._update 10 10 w = Return tt w'
                       /\ (forall src, ~ In (src, 10) (raised w w'))
                       /\ (steady ->
                           raised w w'
                           = signal (right <? ThresholdDetector.lowThreshold
                                                (promixityThreshold (this w)))
                                    5 w
                               ++ signal (left <? ThresholdDetector.lowThreshold
                                                    (promixityThreshold (this w)))
                                         4 w))).
Proof.
  cbv zeta.
  assert (Hnear : forall c code src, code <> 10 -> ~ In (src, 10) (signal c code w)).
  { intros c code src Hne. unfold signal. destruct c; cbn; [| tauto].
    intros [E | []]. injection E as _ E. congruence. }
  split; [| split; [| split; [| split]]].
  - eexists. split; [apply five_update_run |].
    erewrite raised_app by reflexivity. rewrite Hmove.
    apply in_or_app. right. now left.
  - eexists. split; [apply legacy_update_run |].
    erewrite raised_app by reflexivity. rewrite Hmove.
    apply in_or_app. right. now left.
  - eexists. split; [apply five_update_run |].
    erewrite raised_app by reflexivity. rewrite Hmove. cbn [signal]. split.
    + intros src Hin. apply in_app_or in Hin as [Hin | []].
      now apply levelSignal_not_detected in Hin.
    + intros Hst. now rewrite levelSignal_steady.
  - eexists. split; [apply legacy_update_run |].
    erewrite raised_app by reflexivity. rewrite Hmove. cbn [signal]. split.
    + intros src Hin. apply in_app_or in Hin as [Hin | []].
      now apply levelSignal_not_detected in Hin.
    + intros Hst. now rewrite levelSignal_steady.
  - intros right left Hsync Hright Hleft. split.
    + destruct (dual_update_run 10 12 right left w Hsync Hright Hleft)
        as (w' & Hrun & _ & _ & _ & _ & _ & Hbus).
      exists w'. split; [exact Hrun |].
      rewrite (raised_app _ _ _ Hbus), Hmove.
      apply in_or_app. right. now left.
    + destruct (dual_update_run 10 10 right left w Hsync Hright Hleft)
        as (w' & Hrun & _ & _ & _ & _ & _ & Hbus).
      exists w'. split; [exact Hrun |].
      rewrite (raised_app _ _ _ Hbus), Hmove.
      change (signal (Z.abs (10 - 10) >? 1) 10 w) with (@nil (Z * Z)).
      rewrite app_nil_l. split.
      * intros src Hin.
        apply in_app_or in Hin as [Hin | Hin];
          [now apply levelSignal_not_detected in Hin |].
        apply in_app_or in Hin as [Hin | Hin];
          revert Hin; apply Hnear; discriminate.
      * intros Hst. now rewrite levelSignal_steady.
Qed.

Lemma C6_movement_detection_witness :
  let w := DualLidar.constructor 1 bench in
  movementThreshold (this w) = 1
  /\ inSync w
  /\ (exists w', DualLidar._update 10 12 w = Return tt w'
                 /\ In (1, 10) (raised w w'))
  /\ (exists w', FiveLidar._update 10 10 w = Return tt w'
                 /\ forall src, ~ In (src, 10) (raised w w')).
Proof.
  cbv zeta.
  assert (Hsync : inSync (DualLidar.constructor 1 bench)) by reflexivity.
  destruct (C6_movement_detection (DualLidar.constructor 1 bench) eq_refl)
    as (_ & _ & (w1 & Hrun1 & Hnone & _) & _ & Hdual).
  destruct (Hdual 300 100 Hsync eq_refl eq_refl) as ((w2 & Hrun2 & Hin) & _).
  split; [reflexivity |]. split; [exact Hsync |]. split.
  - exists w2. split; [exact Hrun2 | exact Hin].
  - exists w1. split; [exact Hrun1 | exact Hnone].
Defined.

(** C2, as stated, fails in the dual-lidar driver: a condition that is no
    member of the enum, 7, is not ignored.  setThreshold(7, 50) moves the low
    threshold of the proximity detector from 100 to 50, and
    getProximityThreshold(7) returns the low threshold, 100, not 0. *)
Lemma C2_counterexample :
  let w := DualLidar.constructor 1 bench in
  (forall e, dualEvent e <> 7)
  /\ ThresholdDetector.lowThreshold (promixityThreshold (this w)) = 100
  /\ (exists w', DualLidar.setThreshold 7 50 w = Return tt w'
                 /\ ThresholdDetector.lowThreshold (promixityThreshold (this w'))
                    = 50)
  /\ DualLidar.getProximityThreshold 7 w = Return 100 w.
Proof.
  cbv zeta. split; [intros e; destruct e; discriminate |].
  split; [reflexivity |]. split; [eexists; split; reflexivity | reflexivity].
Qed.

(** C2, amended.  In the drivers that switch on the condition (main.ts and
    the second document of navigation-sensor.ts), ObjectDetected routes to
    the movement threshold, ObjectNear to the low threshold of the proximity
    detector, and any other condition leaves the whole driver state unchanged
    on set and returns 0 on get.  In the dual-lidar driver ObjectDetected
    routes to the movement threshold and every other condition, recognized or
    not, routes to the low threshold of the proximity detector.  A value
    routed to the low threshold is stored when it keeps the detector's
    ordering invariant, and is read back by the getter. *)
Theorem C2_threshold_routing (condition value : Z) (w : World) :
  let d := promixityThreshold (this w) in
  let moved := withThis (withMovement value (this w)) w in
  let detected := fiveEvent FiveLidar.NavigationSensorEvent.ObjectDetected in
  let near := fiveEvent FiveLidar.NavigationSensorEvent.ObjectNear in
  (* main.ts *)
  (FiveLidar.setThreshold detected value w = Return tt moved
   /\ FiveLidar.threshold detected moved = Return value moved
   /\ FiveLidar.threshold detected w = Return (movementThreshold (this w)) w
   /\ FiveLidar.setThreshold near value w = Uart.setLowThreshold value w
   /\ FiveLidar.threshold near w = Return (ThresholdDetector.lowThreshold d) w
   /\ (condition <> detected -> condition <> near ->
       FiveLidar.setThreshold condition value w = Return tt w
       /\ FiveLidar.threshold condition w = Return 0 w))
  (* navigation-sensor.ts, second document *)
  /\ (LegacyLidar.setThreshold detected value w = Return tt moved
      /\ LegacyLidar.threshold detected moved = Return value moved
      /\ LegacyLidar.threshold detected w = Return (movementThreshold (this w)) w
      /\ LegacyLidar.setThreshold near value w = Uart.setLowThreshold value w
      /\ LegacyLidar.threshold near w = Return (ThresholdDetector.lowThreshold d) w
      /\ (condition <> detected -> condition <> near ->
          LegacyLidar.setThreshold condition value w = Return tt w
          /\ LegacyLidar.threshold condition w = Return 0 w))
  (* navigation-sensor.ts, first document *)
  /\ (DualLidar.setThreshold detected value w = Return tt moved
      /\ DualLidar.getProximityThreshold detected moved = Return value moved
      /\ DualLidar.getProximityThreshold detected w
         = Return (movementThreshold (this w)) w
      /\ (condition <> detected ->
          DualLidar.setThreshold condition value w = Uart.setLowThreshold value w
          /\ DualLidar.getProximityThreshold condition w
             = Return (ThresholdDetector.lowThreshold d) w))
  (* what routing to the low threshold does *)
  /\ (ThresholdDetector.min d <= value <= ThresholdDetector.highThreshold d ->
      ThresholdDetector.highThreshold d <= ThresholdDetector.max d ->
      exists w',
        Uart.setLowThreshold value w = Return tt w'
        /\ ThresholdDetector.lowThreshold (promixityThreshold (this w')) = value
        /\ movementThreshold (this w') = movementThreshold (this w)
        /\ FiveLidar.threshold near w' = Return value w'
        /\ DualLidar.getProximityThreshold near w' = Return value w').
Proof.
  cbv zeta.
  assert (Hswitch : forall A (a b c : A),
             condition <> 10 -> condition <> 3 ->
             (if condition =? 3 then a else if condition =? 10 then b else c) = c).
  { intros A a b c H10 H3.
    destruct (Z.eqb_spec condition 3); [contradiction |].
    destruct (Z.eqb_spec condition 10); [contradiction | reflexivity]. }
  split; [| split; [| split]].
  - repeat split; try reflexivity.
    + unfold FiveLidar.setThreshold. cbn [FiveLidar.NavigationSensorEvent.value ThresholdState.value].
      now rewrite Hswitch.
    + unfold FiveLidar.threshold. cbn [FiveLidar.NavigationSensorEvent.value ThresholdState.value].
      now rewrite Hswitch.
  - repeat split; try reflexivity.
    + unfold LegacyLidar.setThreshold. cbn [LegacyLidar.NavigationSensorEvent.value ThresholdState.value].
      now rewrite Hswitch.
    + unfold LegacyLidar.threshold. cbn [LegacyLidar.NavigationSensorEvent.value ThresholdState.value].
      now rewrite Hswitch.
  - repeat split; try reflexivity.
    + unfold DualLidar.setThreshold. cbn [DualLidar.NavigationSensorEvent.value].
      destruct (Z.eqb_spec condition 10); [contradiction | reflexivity].
    + unfold DualLidar.getProximityThreshold. cbn [DualLidar.NavigationSensorEvent.value].
      destruct (Z.eqb_spec condition 10); [contradiction | reflexivity].
  - intros Hin Hmax. eexists. split.
    + apply setLowThreshold_accept. unfold ThresholdDetector.ordered. cbn.
      rewrite !andb_true_iff, !Z.leb_le. lia.
    + repeat split.
Qed.

Lemma C2_threshold_routing_witness :
  let w := FiveLidar.constructor 1 bench in
  (7 <> 10 /\ 7 <> 3)
  /\ FiveLidar.setThreshold 7 50 w = Return tt w
  /\ FiveLidar.threshold 7 w = Return 0 w
  /\ DualLidar.getProximityThreshold 4 (DualLidar.constructor 1 bench)
     = Return 100 (DualLidar.constructor 1 bench)
  /\ exists w', FiveLidar.setThreshold 3 50 w = Return tt w'
                /\ FiveLidar.threshold 3 w' = Return 50 w'.
Proof.
  cbv zeta.
  destruct (C2_threshold_routing 7 50 (FiveLidar.constructor 1 bench))
    as ((_ & _ & _ & Hnear & _ & Hother) & _ & _ & Hstore).
  destruct (C2_threshold_routing 4 50 (DualLidar.constructor 1 bench))
    as (_ & _ & (_ & _ & _ & Hdual) & _).
  split; [split; discriminate |].
  split; [apply Hother; discriminate |].
  split; [apply Hother; discriminate |].
  split; [apply Hdual; discriminate |].
  destruct Hstore as (w' & Hset & _ & _ & Hget & _);
    [vm_compute; split; discriminate | vm_compute; discriminate |].
  exists w'. split; [| exact Hget].
  change 3 with (FiveLidar.NavigationSensorEvent.value
                   FiveLidar.NavigationSensorEvent.ObjectNear).
  now rewrite Hnear.
Defined.

End Claims.

(** * Further properties of the drivers *)

(** ** What a single call leaves behind *)

Section CallFacts.

Import Uart UartNotations Observe Session.

Lemma accessor_world (m : Z) (fmt : Codec.NumberFormat) (off : nat) (w : World) :
  world ((_setMode m ;; getNumber fmt off) w) = selectMode m w.
Proof.
  unfold bind, _setMode, modify, getNumber.
  now destruct (Codec.decode _ _ _ _).
Qed.

Lemma getNumber_world (fmt : Codec.NumberFormat) (off : nat) (w : World) :
  world (getNumber fmt off w) = w.
Proof. unfold getNumber. now destruct (Codec.decode _ _ _ _). Qed.

(** [setLowThreshold] touches the low threshold of the detector and nothing
    else. *)
Lemma setLowThreshold_world (value : Z) (w : World) :
  let w' := world (Uart.setLowThreshold value w) in
  uart w' = uart w /\ bus w' = bus w
  /\ mode (this w') = mode (this w) /\ _id (this w') = _id (this w)
  /\ movementThreshold (this w') = movementThreshold (this w)
  /\ ThresholdDetector.id (promixityThreshold (this w'))
     = ThresholdDetector.id (promixityThreshold (this w)).
Proof.
  unfold Uart.setLowThreshold, ThresholdDetector.setLowThreshold.
  destruct (ThresholdDetector.ordered _); cbn; repeat split.
Qed.

(** The dual-lidar hook, whether its re-reads succeed or not: the detector
    is updated, the driver ends in NAV1, and the bus gains the level signal,
    the movement event and then at most the two near events. *)
Lemma dual_update_world (prev curr : Z) (w : World) :
  let w' := world (DualLidar._update prev curr w) in
  promixityThreshold (this w')
  = fst (ThresholdDetector.setLevel curr (promixityThreshold (this w)))
  /\ movementThreshold (this w') = movementThreshold (this w)
  /\ _id (this w') = _id (this w)
  /\ mode (this w') = 0
  /\ uart w' = uart (selectMode 0 w)
  /\ exists a b : bool,
      bus w'
      = bus w ++ levelSignal curr w
          ++ signal (Z.abs (curr - prev) >? movementThreshold (this w)) 10 w
          ++ signal a 5 w ++ signal b 4 w.
Proof.
  cbv zeta.
  unfold DualLidar._update, bind. rewrite setLevel_run.
  unfold gets, DualLidar.raiseOwn. rewrite when_raise. cbn.
  unfold DualLidar.distanceRight, DualLidar.distanceLeft, bind, _setMode,
    modify, getNumber, readRegisters, selectMode.
  cbn.
  destruct w as [[sid md prox mov] [act regs cmds] evs]. cbn.
  unfold when, raiseEvent, modify, ret, signal. rewrite abs_swap.
  destruct md as [|p|p]; cbn;
    (destruct (Codec.decode _ 2 2 false) as [right | e]; cbn;
     [ destruct (right <? ThresholdDetector.lowThreshold prox) eqn:Er; cbn;
       (destruct (Codec.decode _ 0 2 false) as [left | e]; cbn;
        [ destruct (left <? ThresholdDetector.lowThreshold prox) eqn:El; cbn
        | ])
     | ]);
    repeat (split; [reflexivity |]);
    first
      [ exists true, true; cbn; now rewrite <- ?app_assoc, ?app_nil_r
      | exists true, false; cbn; now rewrite <- ?app_assoc, ?app_nil_r
      | exists false, true; cbn; now rewrite <- ?app_assoc, ?app_nil_r
      | exists false, false; cbn; now rewrite <- ?app_assoc, ?app_nil_r ].
Qed.

End CallFacts.

(** ** Sessions *)

Section SessionFacts.

Import Uart UartNotations Observe Session.

Lemma last_cons_default (m d : Z) (l : list Z) : last (m :: l) d = last l m.
Proof.
  revert m d. induction l as [|x l IH]; intros m d; [reflexivity |].
  change (last (m :: x :: l) d) with (last (x :: l) d).
  now rewrite (IH x d), (IH x m).
Qed.

Lemma changes_alternates (current : Z) (requested : list Z) :
  alternates current (changes current requested) = true.
Proof.
  revert current. induction requested as [|m rest IH]; intros current;
    [reflexivity |].
  cbn [changes]. destruct (Z.eqb_spec m current) as [-> | Hne]; cbn [app].
  - apply IH.
  - cbn [alternates]. rewrite IH.
    destruct (Z.eqb_spec m current); [contradiction | reflexivity].
Qed.

Lemma changes_length (current : Z) (requested : list Z) :
  (length (changes current requested) <= length requested)%nat.
Proof.
  revert current. induction requested as [|m rest IH]; intros current;
    [apply Nat.le_refl |].
  cbn [changes]. rewrite length_app. specialize (IH m).
  destruct (m =? current); cbn [length]; lia.
Qed.

(** Requests for the mode the selector already is in send nothing. *)
Lemma changes_same (current : Z) (requested : list Z) :
  Forall (fun m => m = current) requested -> changes current requested = [].
Proof.
  induction 1 as [|m rest -> _ IH]; [reflexivity |].
  cbn [changes]. now rewrite Z.eqb_refl, IH.
Qed.

Ltac low_threshold_case w v :=
  destruct (setLowThreshold_world v w) as (? & ? & ? & ? & ? & ?).

(** What a call of the five-lidar driver does to the mode and the device is
    what its mode request does. *)
Lemma five_step_device (c : FiveSession.Call) (w : World) :
  mode (this (FiveSession.step c w))
  = mode (this (select (FiveSession.requests c) w))
  /\ uart (FiveSession.step c w) = uart (select (FiveSession.requests c) w).
Proof.
  destruct c; cbn [FiveSession.step FiveSession.requests select];
    try (unfold FiveLidar.distanceFrontLeft, FiveLidar.distanceFrontRight,
           FiveLidar.distanceRear, FiveLidar.distanceLeftSide,
           FiveLidar.distanceRightSide, FiveLidar.heading, FiveLidar.pitch,
           FiveLidar.roll;
         rewrite accessor_world; split; reflexivity).
  - unfold FiveLidar._query. now rewrite getNumber_world.
  - rewrite five_update_run. split; reflexivity.
  - unfold FiveLidar.setThreshold.
    destruct (condition =? _); [low_threshold_case w value; now split |].
    destruct (condition =? _); split; reflexivity.
  - unfold FiveLidar.threshold.
    destruct (condition =? _); [split; reflexivity |].
    destruct (condition =? _); split; reflexivity.
Qed.

Lemma select_commands (r : option Z) (w : World) :
  commands (uart (select r w))
  = commands (uart w)
      ++ changes (mode (this w)) (match r with Some m => [m] | None => [] end).
Proof.
  destruct r as [m|]; cbn [select changes].
  - rewrite selectMode_commands. now rewrite app_nil_r.
  - now rewrite app_nil_r.
Qed.

Lemma changes_app (current : Z) (l1 l2 : list Z) :
  changes current (l1 ++ l2)
  = changes current l1 ++ changes (lastOf current l1) l2.
Proof.
  revert current. induction l1 as [|m rest IH]; intros current; [reflexivity |].
  cbn [app changes]. unfold lastOf. rewrite last_cons_default, IH, app_assoc.
  reflexivity.
Qed.

Lemma lastOf_app (current : Z) (l1 l2 : list Z) :
  lastOf current (l1 ++ l2) = lastOf (lastOf current l1) l2.
Proof.
  unfold lastOf. revert current.
  induction l1 as [|m rest IH]; intros current; [reflexivity |].
  cbn [app]. now rewrite !last_cons_default, IH.
Qed.

Lemma five_run_device (calls : list FiveSession.Call) (w : World) :
  commands (uart (run FiveSession.step calls w))
  = commands (uart w) ++ changes (mode (this w)) (FiveSession.requested calls)
  /\ mode (this (run FiveSession.step calls w))
     = lastOf (mode (this w)) (FiveSession.requested calls)
  /\ registers (uart (run FiveSession.step calls w)) = registers (uart w)
  /\ (inSync w -> inSync (run FiveSession.step calls w)).
Proof.
  revert w. induction calls as [|c rest IH]; intros w.
  - cbn. rewrite app_nil_r. repeat split. trivial.
  - change (run FiveSession.step (c :: rest) w)
      with (run FiveSession.step rest (FiveSession.step c w)).
    destruct (IH (FiveSession.step c w)) as (Hc & Hm & Hr & Hs).
    destruct (five_step_device c w) as (Em & Eu).
    change (FiveSession.requested (c :: rest))
      with ((match FiveSession.requests c with Some m => [m] | None => [] end)
              ++ FiveSession.requested rest).
    assert (Emode : mode (this (FiveSession.step c w))
                    = lastOf (mode (this w))
                        (match FiveSession.requests c with
                         | Some m => [m] | None => []
                         end)).
    { rewrite Em. destruct (FiveSession.requests c); cbn [select].
      - apply selectMode_mode.
      - reflexivity. }
    split; [| split; [| split]].
    + rewrite Hc, Eu, select_commands, changes_app, <- app_assoc, Emode.
      reflexivity.
    + rewrite Hm, lastOf_app, Emode. reflexivity.
    + rewrite Hr, Eu. destruct (FiveSession.requests c); cbn [select];
        [apply selectMode_frame | reflexivity].
    + intros Hsync. apply Hs. unfold inSync. rewrite Em, Eu.
      destruct (FiveSession.requests c); cbn [select];
        [now apply selectMode_inSync | exact Hsync].
Qed.

Lemma run_invariant {C : Type} (step : C -> World -> World)
      (P : World -> Prop) :
  (forall c w, P w -> P (step c w)) ->
  forall calls w, P w -> P (run step calls w).
Proof.
  intros Hstep calls. induction calls as [|c rest IH]; intros w Hw;
    [exact Hw |].
  apply IH, Hstep, Hw.
Qed.

(** In NAV1 no call of the dual-lidar driver changes the mode or touches the
    device. *)
Lemma dual_step_nav1 (c : DualSession.Call) (w : World) :
  mode (this w) = 0 ->
  mode (this (DualSession.step c w)) = 0 /\ uart (DualSession.step c w) = uart w.
Proof.
  intros Hm.
  destruct c; cbn [DualSession.step];
    try (unfold DualLidar.distanceLeft, DualLidar.distanceRight,
           DualLidar.heading;
         rewrite accessor_world, selectMode_same by exact Hm; now split).
  - unfold DualLidar._query. rewrite getNumber_world. now split.
  - destruct (dual_update_world prev curr w) as (_ & _ & _ & Em & Eu & _).
    rewrite selectMode_same in Eu by exact Hm. now split.
  - unfold DualLidar.setThreshold.
    destruct (condition =? _); [now split |].
    low_threshold_case w value. split; congruence.
  - unfold DualLidar.getProximityThreshold.
    destruct (condition =? _); now split.
Qed.

Lemma legacy_step_nav1 (c : LegacySession.Call) (w : World) :
  mode (this w) = 0 ->
  mode (this (LegacySession.step c w)) = 0
  /\ uart (LegacySession.step c w) = uart w.
Proof.
  intros Hm.
  destruct c; cbn [LegacySession.step];
    try (unfold LegacyLidar.distanceLeft, LegacyLidar.distanceRight,
           LegacyLidar.heading;
         rewrite accessor_world, selectMode_same by exact Hm; now split).
  - unfold LegacyLidar._query. rewrite getNumber_world. now split.
  - rewrite legacy_update_run. now split.
  - unfold LegacyLidar.setThreshold.
    destruct (condition =? _); [low_threshold_case w value; split; congruence |].
    destruct (condition =? _); now split.
  - unfold LegacyLidar.threshold.
    destruct (condition =? _); [now split |].
    destruct (condition =? _); now split.
Qed.

Lemma levelSignal_sourced (port curr : Z) (codes : list Z) (w : World) :
  ThresholdDetector.id (promixityThreshold (this w)) = port ->
  incl [1; 2; 3] codes ->
  Forall (fun e => fst e = port /\ In (snd e) codes) (levelSignal curr w).
Proof.
  intros Hid Hcodes. unfold levelSignal.
  destruct (snd (ThresholdDetector.setLevel curr (promixityThreshold (this w))))
    as [s|]; constructor; [| constructor].
  split; [exact Hid |]. apply Hcodes. destruct s; cbn; tauto.
Qed.

Lemma signal_sourced (port code : Z) (codes : list Z) (c : bool) (w : World) :
  _id (this w) = port -> In code codes ->
  Forall (fun e => fst e = port /\ In (snd e) codes) (signal c code w).
Proof.
  intros Hid Hin. unfold signal. destruct c; constructor; [| constructor].
  now split.
Qed.

Lemma five_step_sourced (port : Z) (c : FiveSession.Call) (w : World) :
  sourced port [1; 2; 3; 10] w ->
  sourced port [1; 2; 3; 10] (FiveSession.step c w).
Proof.
  intros (Hid & Hdet & Hbus). unfold sourced.
  destruct c; cbn [FiveSession.step];
    try (unfold FiveLidar.distanceFrontLeft, FiveLidar.distanceFrontRight,
           FiveLidar.distanceRear, FiveLidar.distanceLeftSide,
           FiveLidar.distanceRightSide, FiveLidar.heading, FiveLidar.pitch,
           FiveLidar.roll;
         rewrite accessor_world;
         match goal with
         | |- context [selectMode ?m w] =>
             destruct (selectMode_frame m w) as (-> & -> & _ & -> & _)
         end;
         now repeat split).
  - unfold FiveLidar._query. rewrite getNumber_world. now repeat split.
  - rewrite five_update_run. cbn [bus world]. repeat split; try assumption.
    rewrite !Forall_app. repeat split; try assumption.
    + apply levelSignal_sourced; [exact Hdet | intros x Hx; cbn in *; tauto].
    + apply signal_sourced; [exact Hid | cbn; tauto].
  - unfold FiveLidar.setThreshold.
    destruct (condition =? _);
      [low_threshold_case w value; repeat split; congruence |].
    destruct (condition =? _); now repeat split.
  - unfold FiveLidar.threshold.
    destruct (condition =? _); [now repeat split |].
    destruct (condition =? _); now repeat split.
Qed.

Lemma legacy_step_sourced (port : Z) (c : LegacySession.Call) (w : World) :
  sourced port [1; 2; 3; 10] w ->
  sourced port [1; 2; 3; 10] (LegacySession.step c w).
Proof.
  intros (Hid & Hdet & Hbus). unfold sourced.
  destruct c; cbn [LegacySession.step];
    try (unfold LegacyLidar.distanceLeft, LegacyLidar.distanceRight,
           LegacyLidar.heading;
         rewrite accessor_world;
         match goal with
         | |- context [selectMode ?m w] =>
             destruct (selectMode_frame m w) as (-> & -> & _ & -> & _)
         end;
         now repeat split).
  - unfold LegacyLidar._query. rewrite getNumber_world. now repeat split.
  - rewrite legacy_update_run. cbn [bus world]. repeat split; try assumption.
    rewrite !Forall_app. repeat split; try assumption.
    + apply levelSignal_sourced; [exact Hdet | intros x Hx; cbn in *; tauto].
    + apply signal_sourced; [exact Hid | cbn; tauto].
  - unfold LegacyLidar.setThreshold.
    destruct (condition =? _);
      [low_threshold_case w value; repeat split; congruence |].
    destruct (condition =? _); now repeat split.
  - unfold LegacyLidar.threshold.
    destruct (condition =? _); [now repeat split |].
    destruct (condition =? _); now repeat split.
Qed.

Lemma dual_step_sourced (port : Z) (c : DualSession.Call) (w : World) :
  sourced port [1; 2; 3; 4; 5; 10] w ->
  sourced port [1; 2; 3; 4; 5; 10] (DualSession.step c w).
Proof.
  intros (Hid & Hdet & Hbus). unfold sourced.
  destruct c; cbn [DualSession.step];
    try (unfold DualLidar.distanceLeft, DualLidar.distanceRight,
           DualLidar.heading;
         rewrite accessor_world;
         match goal with
         | |- context [selectMode ?m w] =>
             destruct (selectMode_frame m w) as (-> & -> & _ & -> & _)
         end;
         now repeat split).
  - unfold DualLidar._query. rewrite getNumber_world. now repeat split.
  - destruct (dual_update_world prev curr w)
      as (-> & _ & -> & _ & _ & (a & b & ->)).
    repeat split; try assumption.
    rewrite !Forall_app. repeat split; try assumption.
    + apply levelSignal_sourced; [exact Hdet | intros x Hx; cbn in *; tauto].
    + apply signal_sourced; [exact Hid | cbn; tauto].
    + apply signal_sourced; [exact Hid | cbn; tauto].
    + apply signal_sourced; [exact Hid | cbn; tauto].
  - unfold DualLidar.setThreshold.
    destruct (condition =? _); [now repeat split |].
    low_threshold_case w value. repeat split; congruence.
  - unfold DualLidar.getProximityThreshold.
    destruct (condition =? _); now repeat split.
Qed.

End SessionFacts.

(** ** Properties of whole sessions *)

Section Sessions.

Import Uart UartNotations Observe Session.

Local Notation "'NAV1'" :=
  (DualLidar.NavigationSensorMode.value DualLidar.NavigationSensorMode.NAV1).
Local Notation "'RANGE'" :=
  (FiveLidar.NavigationSensorMode.value FiveLidar.NavigationSensorMode.RANGE).
Local Notation "'HEADING'" :=
  (FiveLidar.NavigationSensorMode.value FiveLidar.NavigationSensorMode.HEADING).

Lemma channel_reads (c : FiveChannels.Channel) (w : World) :
  inSync w ->
  readsField (FiveChannels.accessor c) (FiveChannels.modeOf c)
             (FiveChannels.offsetOf c) 2 (FiveChannels.signedOf c) w.
Proof.
  intros Hsync.
  destruct c;
    first [ exact (accessor_reads _ Codec.UInt16LE _ w Hsync)
          | exact (accessor_reads _ Codec.Int16LE _ w Hsync) ].
Qed.

Lemma readAll_run (cs : list FiveChannels.Channel) :
  forall (vs : list Z) (w : World),
    inSync w ->
    map (FiveChannels.fieldOf (registers (uart w))) cs = map Ok vs ->
    exists w',
      FiveChannels.readAll cs w = Return vs w'
      /\ commands (uart w')
         = commands (uart w)
             ++ changes (mode (this w)) (map FiveChannels.modeOf cs)
      /\ mode (this w') = lastOf (mode (this w)) (map FiveChannels.modeOf cs)
      /\ registers (uart w') = registers (uart w)
      /\ bus w' = bus w
      /\ promixityThreshold (this w') = promixityThreshold (this w)
      /\ movementThreshold (this w') = movementThreshold (this w)
      /\ inSync w'.
Proof.
  induction cs as [|c rest IH]; intros vs w Hsync Hfields.
  - destruct vs; [| discriminate]. exists w. cbn.
    rewrite app_nil_r. repeat split. exact Hsync.
  - destruct vs as [|v vs]; [discriminate |].
    cbn [map] in Hfields. injection Hfields as Hc Hrest.
    destruct (channel_reads c w Hsync) as (Hm & _ & Hrun).
    unfold FiveChannels.fieldOf in Hc. rewrite Hc in Hrun.
    destruct (selectMode_frame (FiveChannels.modeOf c) w)
      as (Fb & Fp & Fv & _ & Fr).
    destruct (IH vs (selectMode (FiveChannels.modeOf c) w))
      as (w' & Hall & Hcmd & Hmode & Hregs & Hbus & Hprox & Hmov & Hs').
    { now apply selectMode_inSync. }
    { now rewrite Fr. }
    exists w'. split.
    { cbn [FiveChannels.readAll]. unfold bind at 1. rewrite Hrun.
      unfold bind at 1. now rewrite Hall. }
    cbn [map changes]. unfold lastOf. rewrite last_cons_default.
    rewrite Hcmd, selectMode_commands, Hm, <- app_assoc.
    repeat split; try congruence.
    rewrite Hmode, Hm. reflexivity.
Qed.

(** X1 (main.ts, the eight accessors): read one after another, in any order
    and from any mode, the accessors return for each channel the field the
    device holds for it, whatever was read before; the device receives one
    command per change of mode between consecutive reads and none otherwise;
    and reading changes neither the thresholds nor the bus. *)
Theorem five_readings_live (cs : list FiveChannels.Channel) (vs : list Z)
        (w : World) (Hsync : inSync w)
        (Hfields : map (FiveChannels.fieldOf (registers (uart w))) cs
                   = map Ok vs) :
  exists w',
    FiveChannels.readAll cs w = Return vs w'
    /\ issued w w' = changes (mode (this w)) (map FiveChannels.modeOf cs)
    /\ (length (issued w w') <= length cs)%nat
    /\ mode (this w') = lastOf (mode (this w)) (map FiveChannels.modeOf cs)
    /\ registers (uart w') = registers (uart w)
    /\ bus w' = bus w
    /\ promixityThreshold (this w') = promixityThreshold (this w)
    /\ movementThreshold (this w') = movementThreshold (this w)
    /\ inSync w'.
Proof.
  destruct (readAll_run cs vs w Hsync Hfields)
    as (w' & Hall & Hcmd & Hrest).
  exists w'. split; [exact Hall |].
  rewrite (issued_app _ _ _ Hcmd).
  split; [reflexivity |]. split; [| exact Hrest].
  rewrite <- (length_map FiveChannels.modeOf cs). apply changes_length.
Qed.

Lemma five_readings_live_witness :
  let w := FiveLidar.constructor 1 bench in
  let cs := [FiveChannels.RangeRear; FiveChannels.Roll; FiveChannels.Heading;
             FiveChannels.RangeFrontLeft; FiveChannels.RangeRear] in
  inSync w
  /\ exists w',
      FiveChannels.readAll cs w = Return [40; -1; 45; 100; 40] w'
      /\ issued w w' = [0; 1; 0].
Proof.
  cbv zeta.
  assert (Hsync : inSync (FiveLidar.constructor 1 bench)) by reflexivity.
  split; [exact Hsync |].
  destruct (five_readings_live
              [FiveChannels.RangeRear; FiveChannels.Roll; FiveChannels.Heading;
               FiveChannels.RangeFrontLeft; FiveChannels.RangeRear]
              [40; -1; 45; 100; 40] _ Hsync eq_refl)
    as (w' & Hall & Hissued & _).
  exists w'. split; [exact Hall | exact Hissued].
Defined.

(** X2 (navigation-sensor.ts, both documents): after construction, whatever
    methods are called and in whatever order, the driver stays in NAV1 and
    the device is left exactly as the constructor left it: it has received
    the constructor's NAV1 command and nothing since, so NAV2 is never
    selected.  Hence _query always returns what distanceLeft returns. *)
Theorem nav1_sessions_stay (port : Z) (dev : Device)
        (calls : list DualSession.Call) (calls' : list LegacySession.Call) :
  let w0 := DualLidar.constructor port dev in
  let w := run DualSession.step calls w0 in
  let v0 := LegacyLidar.constructor port dev in
  let v := run LegacySession.step calls' v0 in
  (mode (this w) = NAV1
   /\ uart w = uart w0
   /\ commands (uart w) = commands dev ++ [NAV1]
   /\ activeMode (uart w) = NAV1
   /\ DualLidar._query w = DualLidar.distanceLeft w)
  /\ (mode (this v) = NAV1
      /\ uart v = uart v0
      /\ commands (uart v) = commands dev ++ [NAV1]
      /\ activeMode (uart v) = NAV1
      /\ LegacyLidar._query v = LegacyLidar.distanceLeft v).
Proof.
  cbv zeta. split.
  - assert (H : mode (this (run DualSession.step calls
                                (DualLidar.constructor port dev))) = 0
                /\ uart (run DualSession.step calls
                             (DualLidar.constructor port dev))
                   = uart (DualLidar.constructor port dev)).
    { apply (run_invariant DualSession.step
               (fun x => mode (this x) = 0
                         /\ uart x = uart (DualLidar.constructor port dev))).
      - intros c x (Hm & Hu). destruct (dual_step_nav1 c x Hm) as (Hm' & Hu').
        split; [exact Hm' | congruence].
      - split; reflexivity. }
    destruct H as (Hm & Hu). rewrite Hu.
    repeat split; try assumption.
    unfold DualLidar._query, DualLidar.distanceLeft, bind, _setMode, modify.
    now rewrite selectMode_same.
  - assert (H : mode (this (run LegacySession.step calls'
                                (LegacyLidar.constructor port dev))) = 0
                /\ uart (run LegacySession.step calls'
                             (LegacyLidar.constructor port dev))
                   = uart (LegacyLidar.constructor port dev)).
    { apply (run_invariant LegacySession.step
               (fun x => mode (this x) = 0
                         /\ uart x = uart (LegacyLidar.constructor port dev))).
      - intros c x (Hm & Hu). destruct (legacy_step_nav1 c x Hm) as (Hm' & Hu').
        split; [exact Hm' | congruence].
      - split; reflexivity. }
    destruct H as (Hm & Hu). rewrite Hu.
    repeat split; try assumption.
    unfold LegacyLidar._query, LegacyLidar.distanceLeft, bind, _setMode, modify.
    now rewrite selectMode_same.
Qed.

(** X3 (main.ts, every method): over any sequence of calls, the commands the
    device receives are exactly the changes of mode among the accessor calls:
    _query, _update, setThreshold and threshold never select a mode.  So no
    command repeats the one before it, there are at most as many commands as
    accessor calls, the driver ends in the mode of the last accessor called
    (the mode it started in if none was), and the driver and the device keep
    agreeing on the mode. *)
Theorem five_session_modes (calls : list FiveSession.Call) (w : World) :
  let w' := run FiveSession.step calls w in
  let asked := FiveSession.requested calls in
  issued w w' = changes (mode (this w)) asked
  /\ alternates (mode (this w)) (issued w w') = true
  /\ (length (issued w w') <= length asked)%nat
  /\ mode (this w') = lastOf (mode (this w)) asked
  /\ registers (uart w') = registers (uart w)
  /\ (inSync w -> inSync w')
  /\ (forall port dev,
        w = FiveLidar.constructor port dev ->
        commands (uart w') = commands dev ++ [HEADING] ++ changes HEADING asked).
Proof.
  cbv zeta.
  destruct (five_run_device calls w) as (Hc & Hm & Hr & Hs).
  rewrite (issued_app _ _ _ Hc).
  split; [reflexivity |].
  split; [apply changes_alternates |].
  split; [apply changes_length |].
  split; [exact Hm |]. split; [exact Hr |]. split; [exact Hs |].
  intros port dev ->. rewrite Hc. cbn. now rewrite <- app_assoc.
Qed.

Lemma five_session_modes_witness :
  let w := FiveLidar.constructor 1 bench in
  let calls := [FiveSession.DistanceRear; FiveSession.Update 45 100;
                FiveSession.DistanceLeftSide; FiveSession.Threshold 3;
                FiveSession.Pitch; FiveSession.Query] in
  inSync w
  /\ commands (uart (run FiveSession.step calls w)) = [1; 0; 1]
  /\ inSync (run FiveSession.step calls w).
Proof.
  cbv zeta.
  assert (Hsync : inSync (FiveLidar.constructor 1 bench)) by reflexivity.
  destruct (five_session_modes
              [FiveSession.DistanceRear; FiveSession.Update 45 100;
               FiveSession.DistanceLeftSide; FiveSession.Threshold 3;
               FiveSession.Pitch; FiveSession.Query]
              (FiveLidar.constructor 1 bench))
    as (_ & _ & _ & _ & _ & Hs & Hcmds).
  split; [exact Hsync |].
  split; [exact (Hcmds 1 bench eq_refl) | exact (Hs Hsync)].
Defined.

(** X4 (all three drivers, every method): whatever is called after
    construction, every event on the bus carries the sensor's own source id,
    and its code is a detector level (1, 2, 3), ObjectDetected (10) or, in
    the dual-lidar driver only, ObjectNearLeft (4) or ObjectNearRight (5).
    Only _update raises events: every other method leaves the bus as it
    is. *)
Theorem events_carry_own_source (port : Z) (dev : Device)
        (callsD : list DualSession.Call) (callsL : list LegacySession.Call)
        (callsF : list FiveSession.Call) :
  sourced port [1; 2; 3; 4; 5; 10]
          (run DualSession.step callsD (DualLidar.constructor port dev))
  /\ sourced port [1; 2; 3; 10]
             (run LegacySession.step callsL (LegacyLidar.constructor port dev))
  /\ sourced port [1; 2; 3; 10]
             (run FiveSession.step callsF (FiveLidar.constructor port dev))
  /\ (forall c w, (forall prev curr, c <> DualSession.Update prev curr) ->
                  bus (DualSession.step c w) = bus w)
  /\ (forall c w, (forall prev curr, c <> LegacySession.Update prev curr) ->
                  bus (LegacySession.step c w) = bus w)
  /\ (forall c w, (forall prev curr, c <> FiveSession.Update prev curr) ->
                  bus (FiveSession.step c w) = bus w).
Proof.
  split; [| split; [| split; [| split; [| split]]]].
  - apply run_invariant; [apply dual_step_sourced |].
    repeat split. constructor.
  - apply run_invariant; [apply legacy_step_sourced |].
    repeat split. constructor.
  - apply run_invariant; [apply five_step_sourced |].
    repeat split. constructor.
  - intros c w Hc.
    destruct c; cbn [DualSession.step];
      try (unfold DualLidar.distanceLeft, DualLidar.distanceRight,
             DualLidar.heading;
           rewrite accessor_world; apply selectMode_frame).
    + unfold DualLidar._query. now rewrite getNumber_world.
    + now elim (Hc prev curr).
    + unfold DualLidar.setThreshold.
      destruct (condition =? _); [reflexivity |].
      apply setLowThreshold_world.
    + unfold DualLidar.getProximityThreshold.
      now destruct (condition =? _).
  - intros c w Hc.
    destruct c; cbn [LegacySession.step];
      try (unfold LegacyLidar.distanceLeft, LegacyLidar.distanceRight,
             LegacyLidar.heading;
           rewrite accessor_world; apply selectMode_frame).
    + unfold LegacyLidar._query. now rewrite getNumber_world.
    + now elim (Hc prev curr).
    + unfold LegacyLidar.setThreshold.
      destruct (condition =? _); [apply setLowThreshold_world |].
      now destruct (condition =? _).
    + unfold LegacyLidar.threshold.
      destruct (condition =? _); [reflexivity |].
      now destruct (condition =? _).
  - intros c w Hc.
    destruct c; cbn [FiveSession.step];
      try (unfold FiveLidar.distanceFrontLeft, FiveLidar.distanceFrontRight,
             FiveLidar.distanceRear, FiveLidar.distanceLeftSide,
             FiveLidar.distanceRightSide, FiveLidar.heading, FiveLidar.pitch,
             FiveLidar.roll;
           rewrite accessor_world; apply selectMode_frame).
    + unfold FiveLidar._query. now rewrite getNumber_world.
    + now elim (Hc prev curr).
    + unfold FiveLidar.setThreshold.
      destruct (condition =? _); [apply setLowThreshold_world |].
      now destruct (condition =? _).
    + unfold FiveLidar.threshold.
      destruct (condition =? _); [reflexivity |].
      now destruct (condition =? _).
Qed.

Lemma events_carry_own_source_witness :
  bus (FiveSession.step (FiveSession.SetThreshold 3 50)
                        (FiveLidar.constructor 2 bench)) = []
  /\ Forall (fun e => fst e = 2 /\ In (snd e) [1; 2; 3; 4; 5; 10])
            (bus (run DualSession.step
                      [DualSession.Update 300 10; DualSession.Heading]
                      (DualLidar.constructor 2 stray))).
Proof.
  destruct (events_carry_own_source
              2 stray [DualSession.Update 300 10; DualSession.Heading] [] [])
    as ((_ & _ & Hbus) & _ & _ & _ & _ & Hquiet).
  split; [| exact Hbus].
  apply (Hquiet (FiveSession.SetThreshold 3 50) (FiveLidar.constructor 2 bench)).
  discriminate.
Defined.

Lemma levelSignal_codes (curr src code : Z) (w : World) :
  In (src, code) (levelSignal curr w) -> 1 <= code <= 3.
Proof.
  unfold levelSignal.
  destruct (snd (ThresholdDetector.setLevel curr (promixityThreshold (this w))))
    as [s|]; cbn; [| tauto].
  intros [E | []]. injection E as _ <-. destruct s; cbn; lia.
Qed.

Lemma signal_in (c : bool) (code code' : Z) (w : World) :
  In (_id (this w), code) (signal c code' w) <-> c = true /\ code = code'.
Proof.
  unfold signal. destruct c; cbn.
  - split; [intros [E | []]; injection E as ->; now split
           | intros (_ & ->); now left].
  - split; [tauto | intros (E & _); discriminate].
Qed.

(** The events of one update of the dual-lidar driver, by code. *)
Lemma update_events_in (curr code : Z) (m r l : bool) (w : World) :
  In (_id (this w), code)
     (levelSignal curr w ++ signal m 10 w ++ signal r 5 w ++ signal l 4 w)
  <-> (In (_id (this w), code) (levelSignal curr w)
       \/ (m = true /\ code = 10) \/ (r = true /\ code = 5)
       \/ (l = true /\ code = 4)).
Proof. rewrite !in_app_iff, !signal_in. tauto. Qed.

(** X5 (setThreshold with _update, all three drivers): setThreshold(
    ObjectDetected, v) stores any v, unchecked, and the following updates
    raise ObjectDetected exactly when |curr - prev| exceeds v.  A negative v
    therefore makes every update raise ObjectDetected, even one whose value
    did not change. *)
Theorem movement_threshold_unchecked (v prev curr : Z) (w : World) :
  let w1 := withThis (withMovement v (this w)) w in
  let detected := (_id (this w), 10) in
  (FiveLidar.setThreshold 10 v w = Return tt w1
   /\ LegacyLidar.setThreshold 10 v w = Return tt w1
   /\ DualLidar.setThreshold 10 v w = Return tt w1)
  /\ (In detected (raised w1 (world (FiveLidar._update prev curr w1)))
      <-> v < Z.abs (curr - prev))
  /\ (In detected (raised w1 (world (LegacyLidar._update prev curr w1)))
      <-> v < Z.abs (curr - prev))
  /\ (In detected (raised w1 (world (DualLidar._update prev curr w1)))
      <-> v < Z.abs (curr - prev))
  /\ (v < 0 ->
      In detected (raised w1 (world (FiveLidar._update curr curr w1)))
      /\ In detected (raised w1 (world (LegacyLidar._update curr curr w1)))
      /\ In detected (raised w1 (world (DualLidar._update curr curr w1)))).
Proof.
  cbv zeta.
  set (w1 := withThis (withMovement v (this w)) w).
  assert (Hfive : forall p c,
             In (_id (this w), 10) (raised w1 (world (FiveLidar._update p c w1)))
             <-> v < Z.abs (c - p)).
  { intros p c. rewrite five_update_run. cbn [world].
    erewrite raised_app by reflexivity.
    change (_id (this w)) with (_id (this w1)).
    rewrite in_app_iff, signal_in. cbn [movementThreshold this w1 withThis withMovement].
    rewrite Z.gtb_lt. split.
    - intros [Hl | (Hm & _)]; [| exact Hm].
      apply levelSignal_codes in Hl. lia.
    - intros Hm. right. now split. }
  assert (Hlegacy : forall p c,
             In (_id (this w), 10)
                (raised w1 (world (LegacyLidar._update p c w1)))
             <-> v < Z.abs (c - p)).
  { intros p c. rewrite legacy_update_run. cbn [world].
    erewrite raised_app by reflexivity.
    change (_id (this w)) with (_id (this w1)).
    rewrite in_app_iff, signal_in. cbn [movementThreshold this w1 withThis withMovement].
    rewrite Z.gtb_lt. split.
    - intros [Hl | (Hm & _)]; [| exact Hm].
      apply levelSignal_codes in Hl. lia.
    - intros Hm. right. now split. }
  assert (Hdual : forall p c,
             In (_id (this w), 10) (raised w1 (world (DualLidar._update p c w1)))
             <-> v < Z.abs (c - p)).
  { intros p c.
    destruct (dual_update_world p c w1) as (_ & _ & _ & _ & _ & (a & b & Hbus)).
    rewrite (raised_app _ _ _ Hbus).
    change (_id (this w)) with (_id (this w1)).
    rewrite update_events_in. cbn [movementThreshold this w1 withThis withMovement].
    rewrite Z.gtb_lt. split.
    - intros [Hl | [(Hm & _) | [(_ & E) | (_ & E)]]];
        [apply levelSignal_codes in Hl; lia | exact Hm | discriminate
        | discriminate].
    - intros Hm. right. left. now split. }
  split; [repeat split |].
  split; [apply Hfive |]. split; [apply Hlegacy |]. split; [apply Hdual |].
  intros Hneg.
  split; [apply Hfive; lia |]. split; [apply Hlegacy; lia | apply Hdual; lia].
Qed.

Lemma movement_threshold_unchecked_witness :
  let w := FiveLidar.constructor 1 bench in
  let w1 := withThis (withMovement (-1) (this w)) w in
  -1 < 0
  /\ FiveLidar.setThreshold 10 (-1) w = Return tt w1
  /\ In (1, 10) (raised w1 (world (FiveLidar._update 45 45 w1))).
Proof.
  cbv zeta.
  destruct (movement_threshold_unchecked (-1) 45 45 (FiveLidar.constructor 1 bench))
    as ((Hset & _) & _ & _ & _ & Hneg).
  split; [lia |]. split; [exact Hset |].
  apply Hneg. lia.
Defined.

(** X6 (navigation-sensor.ts, _update): when the scheduler passes the left
    range it polled as curr, ObjectNearLeft is raised exactly when that range
    is strictly below the low threshold, and ObjectNearRight exactly when the
    right range is.  Whenever ObjectNearLeft is raised the detector is left
    Low; the converse fails at one value only: a range equal to the low
    threshold leaves the detector Low without raising ObjectNearLeft. *)
Theorem dual_near_left_strict (prev right left : Z) (w : World)
        (Hsync : inSync w)
        (Hright : Codec.decode (registers (uart w) NAV1) 2 2 false = Ok right)
        (Hleft : Codec.decode (registers (uart w) NAV1) 0 2 false = Ok left) :
  let w' := world (DualLidar._update prev left w) in
  let low := ThresholdDetector.lowThreshold (promixityThreshold (this w)) in
  let nearLeft := In (_id (this w), 4) (raised w w') in
  let nearRight := In (_id (this w), 5) (raised w w') in
  let isLow := ThresholdDetector.level (promixityThreshold (this w'))
               = ThresholdState.Low in
  (nearLeft <-> left < low)
  /\ (nearRight <-> right < low)
  /\ (nearLeft -> isLow)
  /\ (isLow -> left <> low -> nearLeft)
  /\ (left = low -> isLow /\ ~ nearLeft).
Proof.
  cbv zeta.
  destruct (dual_update_run prev left right left w Hsync Hright Hleft)
    as (w' & Hrun & Hprox & _ & _ & _ & _ & Hbus).
  rewrite Hrun. cbn [world]. rewrite (raised_app _ _ _ Hbus), Hprox.
  rewrite !update_events_in, setLevel_level, !Z.ltb_lt.
  set (low := ThresholdDetector.lowThreshold (promixityThreshold (this w))).
  assert (Hl : (In (_id (this w), 4) (levelSignal left w)
                \/ (Z.abs (left - prev) >? movementThreshold (this w)) = true
                   /\ 4 = 10
                \/ right < low /\ 4 = 5 \/ left < low /\ 4 = 4)
               <-> left < low).
  { split; [| intros H; right; right; right; now split].
    intros [H | [(_ & E) | [(_ & E) | (H & _)]]];
      [apply levelSignal_codes in H; lia | discriminate | discriminate
      | exact H]. }
  assert (Hr : (In (_id (this w), 5) (levelSignal left w)
                \/ (Z.abs (left - prev) >? movementThreshold (this w)) = true
                   /\ 5 = 10
                \/ right < low /\ 5 = 5 \/ left < low /\ 5 = 4)
               <-> right < low).
  { split; [| intros H; right; right; left; now split].
    intros [H | [(_ & E) | [(H & _) | (_ & E)]]];
      [apply levelSignal_codes in H; lia | discriminate | exact H
      | discriminate]. }
  rewrite Hl, Hr.
  assert (Hlow : ThresholdDetector.classify (promixityThreshold (this w)) left
                 = ThresholdState.Low <-> left <= low).
  { unfold ThresholdDetector.classify. fold low.
    destruct (Z.leb_spec left low); [tauto |].
    destruct (left >=? _); split; (discriminate || lia). }
  rewrite Hlow. repeat split; try tauto; lia.
Qed.

Lemma dual_near_left_strict_witness :
  let w := DualLidar.constructor 1 bench in
  inSync w
  /\ Codec.decode (registers (uart w) NAV1) 2 2 false = Ok 300
  /\ Codec.decode (registers (uart w) NAV1) 0 2 false = Ok 100
  /\ ThresholdDetector.level
       (promixityThreshold (this (world (DualLidar._update 300 100 w))))
     = ThresholdState.Low
  /\ ~ In (1, 4) (raised w (world (DualLidar._update 300 100 w))).
Proof.
  cbv zeta.
  assert (Hsync : inSync (DualLidar.constructor 1 bench)) by reflexivity.
  destruct (dual_near_left_strict 300 300 100 (DualLidar.constructor 1 bench)
              Hsync eq_refl eq_refl) as (_ & _ & _ & _ & Hedge).
  split; [exact Hsync |]. split; [reflexivity |]. split; [reflexivity |].
  apply Hedge. reflexivity.
Defined.

(** X7 (setThreshold and the getters, all three drivers): a setter never
    touches the device, the bus or the mode; setting one threshold leaves the
    other as the getter reports it; of two values set for ObjectDetected the
    later one is read back; and a getter always returns and changes
    nothing. *)
Theorem thresholds_independent (condition v v2 : Z) (w : World) :
  let low := ThresholdDetector.lowThreshold (promixityThreshold (this w)) in
  let movement := movementThreshold (this w) in
  let f := world (FiveLidar.setThreshold condition v w) in
  let l := world (LegacyLidar.setThreshold condition v w) in
  let d := world (DualLidar.setThreshold condition v w) in
  (uart f = uart w /\ bus f = bus w /\ mode (this f) = mode (this w)
   /\ uart l = uart w /\ bus l = bus w /\ mode (this l) = mode (this w)
   /\ uart d = uart w /\ bus d = bus w /\ mode (this d) = mode (this w))
  /\ (condition <> 3 ->
      FiveLidar.threshold 3 f = Return low f
      /\ LegacyLidar.threshold 3 l = Return low l)
  /\ (condition = 10 -> DualLidar.getProximityThreshold 3 d = Return low d)
  /\ (condition <> 10 ->
      FiveLidar.threshold 10 f = Return movement f
      /\ LegacyLidar.threshold 10 l = Return movement l
      /\ DualLidar.getProximityThreshold 10 d = Return movement d)
  /\ (condition = 10 ->
      FiveLidar.threshold 10 (world (FiveLidar.setThreshold 10 v2 f))
      = Return v2 (world (FiveLidar.setThreshold 10 v2 f))
      /\ LegacyLidar.threshold 10 (world (LegacyLidar.setThreshold 10 v2 l))
         = Return v2 (world (LegacyLidar.setThreshold 10 v2 l))
      /\ DualLidar.getProximityThreshold
           10 (world (DualLidar.setThreshold 10 v2 d))
         = Return v2 (world (DualLidar.setThreshold 10 v2 d)))
  /\ ((exists r, FiveLidar.threshold condition w = Return r w)
      /\ (exists r, LegacyLidar.threshold condition w = Return r w)
      /\ (exists r, DualLidar.getProximityThreshold condition w = Return r w)).
Proof.
  cbv zeta.
  split; [| split; [| split; [| split; [| split]]]].
  - unfold FiveLidar.setThreshold, LegacyLidar.setThreshold,
      DualLidar.setThreshold.
    cbn [FiveLidar.NavigationSensorEvent.value
           LegacyLidar.NavigationSensorEvent.value
           DualLidar.NavigationSensorEvent.value ThresholdState.value].
    destruct (setLowThreshold_world v w) as (? & ? & ? & ? & ? & ?).
    destruct (condition =? 3); destruct (condition =? 10); now repeat split.
  - intros Hne.
    unfold FiveLidar.setThreshold, LegacyLidar.setThreshold.
    cbn [FiveLidar.NavigationSensorEvent.value
           LegacyLidar.NavigationSensorEvent.value ThresholdState.value].
    destruct (Z.eqb_spec condition 3); [contradiction |].
    destruct (condition =? 10); split; reflexivity.
  - intros ->. reflexivity.
  - intros Hne.
    unfold FiveLidar.setThreshold, LegacyLidar.setThreshold,
      DualLidar.setThreshold.
    cbn [FiveLidar.NavigationSensorEvent.value
           LegacyLidar.NavigationSensorEvent.value
           DualLidar.NavigationSensorEvent.value ThresholdState.value].
    destruct (Z.eqb_spec condition 10); [contradiction |].
    destruct (setLowThreshold_world v w) as (? & ? & ? & ? & ? & ?).
    unfold FiveLidar.threshold, LegacyLidar.threshold,
      DualLidar.getProximityThreshold, gets.
    cbn [FiveLidar.NavigationSensorEvent.value
           LegacyLidar.NavigationSensorEvent.value
           DualLidar.NavigationSensorEvent.value ThresholdState.value Z.eqb
           Pos.eqb].
    destruct (condition =? 3); repeat split; cbn [world]; try congruence;
      f_equal; assumption.
  - intros ->. repeat split.
  - unfold FiveLidar.threshold, LegacyLidar.threshold,
      DualLidar.getProximityThreshold, gets, ret.
    cbn [FiveLidar.NavigationSensorEvent.value
           LegacyLidar.NavigationSensorEvent.value
           DualLidar.NavigationSensorEvent.value ThresholdState.value].
    destruct (condition =? 3); destruct (condition =? 10);
      repeat split; eexists; reflexivity.
Qed.

Lemma thresholds_independent_witness :
  let w := DualLidar.constructor 1 bench in
  let d := world (DualLidar.setThreshold 4 60 w) in
  4 <> 10
  /\ DualLidar.getProximityThreshold 10 d = Return 1 d
  /\ DualLidar.getProximityThreshold 3 (world (DualLidar.setThreshold 10 7 w))
     = Return 100 (world (DualLidar.setThreshold 10 7 w)).
Proof.
  cbv zeta.
  destruct (thresholds_independent 4 60 0 (DualLidar.constructor 1 bench))
    as (_ & _ & _ & Hmove & _).
  destruct (thresholds_independent 10 7 0 (DualLidar.constructor 1 bench))
    as (_ & _ & Hnear & _).
  split; [discriminate |].
  split; [apply Hmove; discriminate | apply Hnear; reflexivity].
Defined.

(** X10 (navigation-sensor.ts, setThreshold with _update): in the dual-lidar
    driver the left and the right lidar share one threshold.  A value set
    under any condition other than ObjectDetected (ObjectNear,
    ObjectNearLeft, ObjectNearRight alike) that the detector accepts is the
    one both near events are compared with from then on: the next update
    raises ObjectNearRight exactly when the right range is below it and
    ObjectNearLeft exactly when the left range is. *)
Theorem dual_shared_near_threshold
        (condition v prev curr right left : Z) (w : World)
        (Hcond : condition <> 10)
        (Hvalid : ThresholdDetector.ordered
                    (ThresholdDetector.withLowThreshold
                       v (promixityThreshold (this w))) = true)
        (Hsync : inSync w)
        (Hright : Codec.decode (registers (uart w) NAV1) 2 2 false = Ok right)
        (Hleft : Codec.decode (registers (uart w) NAV1) 0 2 false = Ok left) :
  exists w1,
    DualLidar.setThreshold condition v w = Return tt w1
    /\ (forall c, c <> 10 -> DualLidar.getProximityThreshold c w1 = Return v w1)
    /\ (In (_id (this w), 5) (raised w1 (world (DualLidar._update prev curr w1)))
        <-> right < v)
    /\ (In (_id (this w), 4) (raised w1 (world (DualLidar._update prev curr w1)))
        <-> left < v).
Proof.
  eexists. split.
  { unfold DualLidar.setThreshold.
    cbn [DualLidar.NavigationSensorEvent.value].
    destruct (Z.eqb_spec condition 10); [contradiction |].
    now apply setLowThreshold_accept. }
  set (w1 := withThis _ w).
  split.
  { intros c Hc. unfold DualLidar.getProximityThreshold.
    cbn [DualLidar.NavigationSensorEvent.value].
    destruct (Z.eqb_spec c 10); [contradiction | reflexivity]. }
  destruct (dual_update_run prev curr right left w1 Hsync Hright Hleft)
    as (w' & Hrun & _ & _ & _ & _ & _ & Hbus).
  rewrite Hrun. cbn [world]. rewrite (raised_app _ _ _ Hbus).
  change (_id (this w)) with (_id (this w1)).
  rewrite !update_events_in.
  change (ThresholdDetector.lowThreshold (promixityThreshold (this w1))) with v.
  rewrite !Z.ltb_lt. split; split.
  - intros [H | [(_ & E) | [(H & _) | (_ & E)]]];
      [apply levelSignal_codes in H; lia | discriminate | exact H
      | discriminate].
  - intros H. right. right. left. now split.
  - intros [H | [(_ & E) | [(_ & E) | (H & _)]]];
      [apply levelSignal_codes in H; lia | discriminate | discriminate
      | exact H].
  - intros H. right. right. right. now split.
Qed.

Lemma dual_shared_near_threshold_witness :
  let w := DualLidar.constructor 1 bench in
  4 <> 10 /\ inSync w
  /\ exists w1,
      DualLidar.setThreshold 4 400 w = Return tt w1
      /\ DualLidar.getProximityThreshold 5 w1 = Return 400 w1
      /\ In (1, 5) (raised w1 (world (DualLidar._update 100 100 w1))).
Proof.
  cbv zeta.
  assert (Hsync : inSync (DualLidar.constructor 1 bench)) by reflexivity.
  assert (Hne : 4 <> 10) by discriminate.
  destruct (dual_shared_near_threshold 4 400 100 100 300 100
              (DualLidar.constructor 1 bench) Hne eq_refl Hsync eq_refl eq_refl)
    as (w1 & Hset & Hget & Hnear & _).
  split; [exact Hne |]. split; [exact Hsync |].
  exists w1. split; [exact Hset |].
  split; [apply Hget; discriminate | apply Hnear; lia].
Defined.

End Sessions.

(** ** The readout and the test program *)

Section Programs.

Import Uart UartNotations Observe Session.
Import String.

Local Notation "'NAV1'" :=
  (DualLidar.NavigationSensorMode.value DualLidar.NavigationSensorMode.NAV1).

(** X8 (_info, all three drivers): the readout is N.C. exactly when the
    sensor is not active; for an active sensor it is id: followed by the
    source id in decimal, so two active sensors show the same readout only
    if they have the same id; and since no method changes the id, the
    readout of a sensor on [port] stays the one it had after construction
    whatever is called. *)
Theorem info_identifies (active : bool) (w w' : World) :
  (Readout._info active w = "N.C."%string <-> active = false)
  /\ (Readout._info true w = Readout._info true w' ->
      _id (this w) = _id (this w'))
  /\ (forall port dev callsD callsL callsF,
        let shown :=
          String.append "id:"
            (DecimalString.NilEmpty.string_of_int (Z.to_int port)) in
        Readout._info true
          (run DualSession.step callsD (DualLidar.constructor port dev)) = shown
        /\ Readout._info true
             (run LegacySession.step callsL (LegacyLidar.constructor port dev))
           = shown
        /\ Readout._info true
             (run FiveSession.step callsF (FiveLidar.constructor port dev))
           = shown).
Proof.
  split; [| split].
  - unfold Readout._info. destruct active; cbn; split;
      (discriminate || reflexivity).
  - unfold Readout._info. cbn. intros E. injection E as E.
    apply DecimalZ.to_int_inj.
    apply (f_equal DecimalString.NilEmpty.int_of_string) in E.
    rewrite !DecimalString.NilEmpty.isi in E. now injection E.
  - intros port dev callsD callsL callsF. cbv zeta. unfold Readout._info.
    assert (HD : sourced port [1; 2; 3; 4; 5; 10]
                   (run DualSession.step callsD (DualLidar.constructor port dev)))
      by (apply run_invariant; [apply dual_step_sourced |];
          repeat split; constructor).
    assert (HL : sourced port [1; 2; 3; 10]
                   (run LegacySession.step callsL
                        (LegacyLidar.constructor port dev)))
      by (apply run_invariant; [apply legacy_step_sourced |];
          repeat split; constructor).
    assert (HF : sourced port [1; 2; 3; 10]
                   (run FiveSession.step callsF (FiveLidar.constructor port dev)))
      by (apply run_invariant; [apply five_step_sourced |];
          repeat split; constructor).
    destruct HD as (-> & _), HL as (-> & _), HF as (-> & _).
    repeat split.
Qed.

Lemma info_identifies_witness :
  Readout._info true (DualLidar.constructor 3 bench) = "id:3"%string
  /\ _id (this (DualLidar.constructor 3 bench))
     = _id (this (FiveLidar.constructor 3 stray))
  /\ Readout._info false (FiveLidar.constructor 3 bench) = "N.C."%string.
Proof.
  destruct (info_identifies false (DualLidar.constructor 3 bench)
                            (FiveLidar.constructor 3 stray))
    as (Hnc & Hsame & Hshown).
  split; [exact (proj1 (Hshown 3 bench [] [] [])) |].
  split; [apply Hsame; reflexivity |].
  apply (proj1 (info_identifies false (FiveLidar.constructor 3 bench)
                                (FiveLidar.constructor 3 bench))).
  reflexivity.
Defined.

Lemma nav1_body (w : World) (left right heading : Z) :
  mode (this w) = 0 -> inSync w ->
  Codec.decode (registers (uart w) 0) 0 2 false = Ok left ->
  Codec.decode (registers (uart w) 0) 2 2 false = Ok right ->
  Codec.decode (registers (uart w) 0) 4 2 false = Ok heading ->
  TestProgram.body w
  = Return [("left"%string, left, 1); ("right"%string, right, 2);
            ("heading"%string, heading, 3)] w.
Proof.
  intros Hm Hsync Hl Hr Hh.
  assert (Hread : forall off v,
             Codec.decode (registers (uart w) 0) off 2 false = Ok v ->
             (_setMode 0 ;; getNumber Codec.UInt16LE off) w = Return v w).
  { intros off v Hv.
    destruct (accessor_reads 0 Codec.UInt16LE off w Hsync) as (_ & _ & E).
    cbn [Codec.width Codec.signed] in E.
    now rewrite Hv, selectMode_same in E by exact Hm. }
  unfold TestProgram.body.
  unfold bind at 1.
  change DualLidar.distanceLeft with (_setMode 0 ;; getNumber Codec.UInt16LE 0).
  rewrite (Hread _ _ Hl). unfold bind at 1.
  change DualLidar.distanceRight with (_setMode 0 ;; getNumber Codec.UInt16LE 2).
  rewrite (Hread _ _ Hr). unfold bind at 1.
  change DualLidar.heading with (_setMode 0 ;; getNumber Codec.UInt16LE 4).
  rewrite (Hread _ _ Hh). reflexivity.
Qed.

(** X9 (the test program of main.ts): on the fixed instance navigation1, every
    pass of the forever loop shows under left, right and heading the fields
    at offsets 0, 2 and 4 of the device's NAV1 buffer, on lines 1, 2 and 3;
    however many passes run, they send the device no command, raise no event
    and leave the driver as it was. *)
Theorem test_program_passes (dev : Device) (n : nat) (left right heading : Z)
        (Hleft : Codec.decode (registers dev 0) 0 2 false = Ok left)
        (Hright : Codec.decode (registers dev 0) 2 2 false = Ok right)
        (Hheading : Codec.decode (registers dev 0) 4 2 false = Ok heading) :
  TestProgram.passes n (TestProgram.navigation1 dev)
  = Return (repeat [("left"%string, left, 1); ("right"%string, right, 2);
                    ("heading"%string, heading, 3)] n)
           (TestProgram.navigation1 dev).
Proof.
  assert (Hbody := nav1_body (TestProgram.navigation1 dev) left right heading
                             eq_refl eq_refl Hleft Hright Hheading).
  induction n as [|k IH]; [reflexivity |].
  cbn [TestProgram.passes repeat]. unfold bind at 1. rewrite Hbody.
  unfold bind at 1. now rewrite IH.
Qed.

Lemma test_program_passes_witness :
  Codec.decode (registers bench 0) 0 2 false = Ok 100
  /\ TestProgram.passes 2 (TestProgram.navigation1 bench)
     = Return [[("left"%string, 100, 1); ("right"%string, 300, 2);
                ("heading"%string, 50, 3)];
               [("left"%string, 100, 1); ("right"%string, 300, 2);
                ("heading"%string, 50, 3)]]
              (TestProgram.navigation1 bench).
Proof.
  split; [reflexivity |].
  exact (test_program_passes bench 2 100 300 50 eq_refl eq_refl eq_refl).
Defined.

End Programs.
